(** * webscrape.py: crawl, link extraction, record extraction and resume

    A shallow embedding of [src/webscrape.py].  Python [str] values are
    modelled as [string] (code points below 256), the parsed page as a
    rose tree of elements and text leaves, the CSV store as the sequence
    of records its reader yields, and the crawl as explicit state passing
    over a network oracle. *)

From Stdlib Require Import Ascii String ZArith Bool List Lia.
From stdpp Require Import base option list gmap strings.

Local Open Scope string_scope.

(** ** Python [str] primitives *)

Module PyStr.

(** [str.isspace] for one code point below 256; this is also the class
    [\s] of [re] on [str] patterns. *)
Definition is_space (c : ascii) : bool :=
  let n := nat_of_ascii c in
  (((9 <=? n) && (n <=? 13)) || ((28 <=? n) && (n <=? 32))
   || (n =? 133) || (n =? 160))%nat.

Definition is_digit (c : ascii) : bool :=
  let n := nat_of_ascii c in ((48 <=? n) && (n <=? 57))%nat.

Definition is_upper_AZ (c : ascii) : bool :=
  let n := nat_of_ascii c in ((65 <=? n) && (n <=? 90))%nat.

Definition is_lower_az (c : ascii) : bool :=
  let n := nat_of_ascii c in ((97 <=? n) && (n <=? 122))%nat.

(** [str.lower] for one code point below 256: A-Z and the Latin-1
    capitals (except the multiplication sign) move up by 32. *)
Definition lower_char (c : ascii) : ascii :=
  let n := nat_of_ascii c in
  if (((65 <=? n) && (n <=? 90))
      || ((192 <=? n) && (n <=? 222) && negb (n =? 215)))%nat
  then ascii_of_nat (n + 32) else c.

Fixpoint lower (s : string) : string :=
  match s with
  | EmptyString => EmptyString
  | String c s' => String (lower_char c) (lower s')
  end.

Definition is_empty (s : string) : bool :=
  match s with EmptyString => true | _ => false end.

(** Truthiness of a [str]: non-empty. *)
Definition truthy (s : string) : bool := negb (is_empty s).

Fixpoint lstrip (s : string) : string :=
  match s with
  | EmptyString => EmptyString
  | String c s' => if is_space c then lstrip s' else s
  end.

Fixpoint rstrip (s : string) : string :=
  match s with
  | EmptyString => EmptyString
  | String c s' =>
      let r := rstrip s' in
      if is_empty r && is_space c then EmptyString else String c r
  end.

(** [s.strip()] *)
Definition strip (s : string) : string := rstrip (lstrip s).

(** [s.startswith(m)] *)
Fixpoint startswith (m s : string) : bool :=
  match m, s with
  | EmptyString, _ => true
  | String a m', String b s' => Ascii.eqb a b && startswith m' s'
  | String _ _, EmptyString => false
  end.

(** [m in s] *)
Fixpoint contains (m s : string) : bool :=
  startswith m s
  || match s with
     | EmptyString => false
     | String _ s' => contains m s'
     end.

(** [s.split(m)[0]] for a non-empty separator [m]: the text before the
    first occurrence of [m], the whole of [s] when there is none. *)
Fixpoint split_head (m s : string) : string :=
  if startswith m s then EmptyString
  else match s with
       | EmptyString => EmptyString
       | String c s' => String c (split_head m s')
       end.

(** [sep.join(l)] *)
Fixpoint join (sep : string) (l : list string) : string :=
  match l with
  | [] => EmptyString
  | [x] => x
  | x :: rest => x +:+ sep +:+ join sep rest
  end.

(** The one-character string of a line feed. *)
Definition NL : string := String "010"%char EmptyString.

(** [any(x in t for x in kws)] *)
Definition any_in (kws : list string) (t : string) : bool :=
  existsb (fun x => contains x t) kws.

End PyStr.
Import PyStr.

(** ** Regular expressions

    The patterns of the source are written as terms of [regex]; matching
    is by derivatives.  [re.match] with a pattern closed by [$] asks
    whether the whole text (up to one final newline) is in the language
    of the pattern, which is what [re_fullmatch] and [re_match_dollar]
    decide. *)

Module Re.

Inductive regex : Type :=
| Void
| Eps
| Class (p : ascii -> bool)
| Cat (r1 r2 : regex)
| Alt (r1 r2 : regex)
| Star (r : regex).

Definition Plus (r : regex) : regex := Cat r (Star r).
Definition Opt (r : regex) : regex := Alt r Eps.
Definition Lit (c : ascii) : regex := Class (Ascii.eqb c).

Fixpoint nullable (r : regex) : bool :=
  match r with
  | Void => false
  | Eps => true
  | Class _ => false
  | Cat r1 r2 => nullable r1 && nullable r2
  | Alt r1 r2 => nullable r1 || nullable r2
  | Star _ => true
  end.

Fixpoint deriv (c : ascii) (r : regex) : regex :=
  match r with
  | Void => Void
  | Eps => Void
  | Class p => if p c then Eps else Void
  | Cat r1 r2 =>
      if nullable r1
      then Alt (Cat (deriv c r1) r2) (deriv c r2)
      else Cat (deriv c r1) r2
  | Alt r1 r2 => Alt (deriv c r1) (deriv c r2)
  | Star r1 => Cat (deriv c r1) (Star r1)
  end.

Fixpoint re_fullmatch (r : regex) (s : string) : bool :=
  match s with
  | EmptyString => nullable r
  | String c s' => re_fullmatch (deriv c r) s'
  end.

(** The language of a pattern. *)
Inductive Matches : regex -> string -> Prop :=
| MEps : Matches Eps EmptyString
| MClass p c : p c = true -> Matches (Class p) (String c EmptyString)
| MCat r1 r2 s1 s2 :
    Matches r1 s1 -> Matches r2 s2 -> Matches (Cat r1 r2) (s1 +:+ s2)
| MAltL r1 r2 s : Matches r1 s -> Matches (Alt r1 r2) s
| MAltR r1 r2 s : Matches r2 s -> Matches (Alt r1 r2) s
| MStar0 r : Matches (Star r) EmptyString
| MStarS r s1 s2 :
    Matches r s1 -> Matches (Star r) s2 -> Matches (Star r) (s1 +:+ s2).

(** [re.match(r"^...$", s)]: [$] holds at the end of the text and just
    before a newline that ends it. *)
Definition re_match_dollar (r : regex) (s : string) : bool :=
  re_fullmatch (Cat r (Opt (Lit "010"%char))) s.

End Re.
Import Re.

(** [r"^[A-Z][a-z]+\s+\d{1,2},?\s+\d{4}$"], the date pattern used for the
    h2 and every h3 heading. *)
Definition DATE_RE : regex :=
  Cat (Class is_upper_AZ)
 (Cat (Plus (Class is_lower_az))
 (Cat (Plus (Class is_space))
 (Cat (Cat (Class is_digit) (Opt (Class is_digit)))
 (Cat (Opt (Lit ","%char))
 (Cat (Plus (Class is_space))
      (Cat (Class is_digit) (Cat (Class is_digit)
      (Cat (Class is_digit) (Class is_digit))))))))).

Definition is_date (t : string) : bool := re_match_dollar DATE_RE t.


(** ** The parsed page (BeautifulSoup with html.parser)

    An element has a lower-cased tag name, its attributes and its
    children; a [Text] leaf is a string that [get_text] yields.  A page
    ([soup]) is the list of top-level nodes of the BeautifulSoup object. *)

Module Bs4.

#[local] Unset Elimination Schemes.
Inductive node : Type :=
| Text (s : string)
| Elem (name : string) (attrs : list (string * string)) (children : list node).
#[local] Set Elimination Schemes.

(** Induction over a page: the step for an element may use the property
    of every child. *)
Fixpoint node_induction (P : node -> Prop)
         (HT : forall s, P (Text s))
         (HE : forall nm attrs cs, Forall P cs -> P (Elem nm attrs cs))
         (n : node) : P n :=
  match n with
  | Text s => HT s
  | Elem nm attrs cs =>
      HE nm attrs cs
         ((fix go (l : list node) : Forall P l :=
             match l with
             | [] => @List.Forall_nil node P
             | x :: r =>
                 @List.Forall_cons node P x r (node_induction P HT HE x) (go r)
             end) cs)
  end.

Definition soup : Type := list node.

Definition is_tag (nm : string) (n : node) : bool :=
  match n with
  | Text _ => false
  | Elem nm' _ _ => String.eqb nm nm'
  end.

Fixpoint assoc (k : string) (l : list (string * string)) : option string :=
  match l with
  | [] => None
  | (k', v) :: rest => if String.eqb k k' then Some v else assoc k rest
  end.

(** [tag.get(k)] *)
Definition attr (k : string) (n : node) : option string :=
  match n with
  | Text _ => None
  | Elem _ attrs _ => assoc k attrs
  end.

(** Pre-order walk of the subtree of [n], each node with its ancestors,
    nearest first. *)
Fixpoint walk (anc : list node) (n : node) : list (node * list node) :=
  (n, anc) ::
  match n with
  | Text _ => []
  | Elem _ _ cs => flat_map (walk (n :: anc)) cs
  end.

(** [soup.descendants], with ancestors. *)
Definition walk_soup (s : soup) : list (node * list node) :=
  flat_map (walk []) s.

(** [tag.descendants]: the subtree below [n], [n] excluded. *)
Definition descendants (n : node) : list node :=
  match n with
  | Text _ => []
  | Elem _ _ cs => map fst (flat_map (walk []) cs)
  end.

Definition soup_descendants (s : soup) : list node := map fst (walk_soup s).

(** [tag.find_all(nm)] and [tag.find(nm)] *)
Definition find_all (nm : string) (n : node) : list node :=
  List.filter (is_tag nm) (descendants n).

Definition find (nm : string) (n : node) : option node :=
  head (find_all nm n).

(** [soup.find_all(nm)] and [soup.find(nm)] *)
Definition soup_find_all (nm : string) (s : soup) : list node :=
  List.filter (is_tag nm) (soup_descendants s).

Definition soup_find (nm : string) (s : soup) : option node :=
  head (soup_find_all nm s).

(** The first [nm] element of the page together with its ancestors. *)
Definition soup_find_ctx (nm : string) (s : soup)
  : option (node * list node) :=
  head (List.filter (fun x => is_tag nm (fst x)) (walk_soup s)).

(** [tag.find_parent(nm)], from the ancestors of [tag]. *)
Definition find_parent (nm : string) (anc : list node) : option node :=
  head (List.filter (is_tag nm) anc).

(** The strings below a node, in document order. *)
Fixpoint strings (n : node) : list string :=
  match n with
  | Text s => [s]
  | Elem _ _ cs => flat_map strings cs
  end.

(** [tag.get_text()] *)
Definition get_text (n : node) : string := join "" (strings n).

(** [tag.get_text(separator=sep, strip=True)] *)
Definition strip_join (sep : string) (l : list string) : string :=
  join sep (List.filter truthy (map strip l)).

Definition get_text_sep (sep : string) (n : node) : string :=
  strip_join sep (strings n).

Definition soup_get_text_sep (sep : string) (s : soup) : string :=
  strip_join sep (flat_map strings s).

(** The page after [tag.decompose()] of every element whose name
    satisfies [bad]: those subtrees are gone, the rest is as it was. *)
Fixpoint prune (bad : string -> bool) (n : node) : list node :=
  match n with
  | Text _ => [n]
  | Elem nm attrs cs =>
      if bad nm then [] else [Elem nm attrs (flat_map (prune bad) cs)]
  end.

Definition decompose_all (bad : string -> bool) (s : soup) : soup :=
  flat_map (prune bad) s.

End Bs4.
Import Bs4.

(** ** Record extraction *)

(** The dict built by [extract_transcript_metadata_and_text]: its eight
    keys, each a [str]. *)
Record data : Type := mk_data {
  player_name : string;
  interview_title : string;
  date : string;
  event : string;
  venue : string;
  team : string;
  session_type : string;
  transcript : string
}.

Definition empty_data : data := mk_data "" "" "" "" "" "" "" "".

Definition set_player_name (d : data) (v : string) : data :=
  mk_data v (interview_title d) (date d) (event d) (venue d) (team d)
          (session_type d) (transcript d).
Definition set_interview_title (d : data) (v : string) : data :=
  mk_data (player_name d) v (date d) (event d) (venue d) (team d)
          (session_type d) (transcript d).
Definition set_date (d : data) (v : string) : data :=
  mk_data (player_name d) (interview_title d) v (event d) (venue d) (team d)
          (session_type d) (transcript d).
Definition set_event (d : data) (v : string) : data :=
  mk_data (player_name d) (interview_title d) (date d) v (venue d) (team d)
          (session_type d) (transcript d).
Definition set_venue (d : data) (v : string) : data :=
  mk_data (player_name d) (interview_title d) (date d) (event d) v (team d)
          (session_type d) (transcript d).
Definition set_team (d : data) (v : string) : data :=
  mk_data (player_name d) (interview_title d) (date d) (event d) (venue d) v
          (session_type d) (transcript d).
Definition set_session_type (d : data) (v : string) : data :=
  mk_data (player_name d) (interview_title d) (date d) (event d) (venue d)
          (team d) v (transcript d).
Definition set_transcript (d : data) (v : string) : data :=
  mk_data (player_name d) (interview_title d) (date d) (event d) (venue d)
          (team d) (session_type d) v.

Definition VENUE_WORDS : list string := ["field"; "stadium"; "park"; "center"].
Definition SESSION_WORDS : list string := ["press"; "conference"; "session"].
Definition TEAM_WORDS : list string :=
  ["twins"; "yankees"; "sox"; "mets"; "dodgers"; "braves"; "guardians";
   "angels"; "mariners"; "athletics"; "rangers"; "royals"; "tigers";
   "rays"; "orioles"; "blue jays"; "nationals"; "phillies"; "marlins";
   "cardinals"; "cubs"; "brewers"; "pirates"; "reds"; "astros";
   "giants"; "padres"; "diamondbacks"; "rockies"; "indians"].
Definition VENUE_WORDS_2 : list string :=
  ["field"; "stadium"; "park"; "center"; "arena"].

(** One round of the loop [for i, t in enumerate(texts)] over the h3
    texts (source lines 151-173). *)
Definition classify_h3 (d : data) (it : nat * string) : data :=
  let '(i, t) := it in
  if negb (truthy t) then d
  else if is_date t then set_date d (if truthy (date d) then date d else t)
  else if negb (truthy (player_name d)) then set_player_name d t
  else if any_in VENUE_WORDS (lower t) then set_venue d t
  else if any_in SESSION_WORDS (lower t) then set_session_type d t
  else if negb (truthy (team d)) && any_in TEAM_WORDS (lower t)
       then set_team d t
  else if negb (truthy (venue d)) && contains "," t && (3 <=? i)%nat
          && any_in VENUE_WORDS_2 (lower t)
       then set_venue d t
  else d.

(** [enumerate(l)] *)
Definition enumerate {A : Type} (l : list A) : list (nat * A) :=
  combine (seq 0 (length l)) l.

Definition classify_all (d : data) (texts : list string) : data :=
  fold_left classify_h3 (enumerate texts) d.

(** The text of a heading or paragraph: [(h.get_text() or "").strip()]. *)
Definition text_of (n : node) : string := strip (get_text n).

(** Source lines 136-139: the h1 gives [event] and [interview_title]. *)
Definition read_h1 (s : soup) (d : data) : data :=
  match soup_find "h1" s with
  | Some h1 => set_interview_title (set_event d (text_of h1)) (text_of h1)
  | None => d
  end.

(** Source lines 142-146: an h2 that reads as a date gives [date]. *)
Definition read_h2 (s : soup) (d : data) : data :=
  match soup_find "h2" s with
  | Some h2 => if is_date (text_of h2) then set_date d (text_of h2) else d
  | None => d
  end.

(** Source lines 149-173. *)
Definition h3_texts (s : soup) : list string :=
  map text_of (soup_find_all "h3" s).

Definition read_h3 (s : soup) (d : data) : data :=
  classify_all d (h3_texts s).

(** Source line 176:
    [soup.find("h1") and soup.find("h1").find_parent("td")]. *)
Definition main_td (s : soup) : option node :=
  match soup_find_ctx "h1" s with
  | Some (_, anc) => find_parent "td" anc
  | None => None
  end.

(** The two markers of the paragraph loop (source line 181). *)
Definition is_trailer (text : string) : bool :=
  contains "FastScripts Transcript" text || contains "ASAP Sports, Inc" text.

(** Source lines 179-184: the loop over the paragraph texts, left at the
    first trailer paragraph. *)
Fixpoint collect_paragraphs (texts : list string) : list string :=
  match texts with
  | [] => []
  | text :: rest =>
      if is_trailer text then []
      else if truthy text then text :: collect_paragraphs rest
      else collect_paragraphs rest
  end.

Definition paragraph_texts (td : node) : list string :=
  map text_of (find_all "p" td).

(** [if marker in text: text = text.split(marker)[0]] *)
Definition cut_step (text marker : string) : string :=
  if contains marker text then split_head marker text else text.

(** [for marker in markers: ...], the loop of source lines 187-189 and
    204-206. *)
Definition cut_at (markers : list string) (text : string) : string :=
  fold_left cut_step markers text.

(** Source lines 185-190: with no paragraph kept and a main cell, the
    flattened text of the cell, cut at two markers. *)
Definition CELL_MARKERS : list string :=
  ["FastScripts Transcript"; "ASAP Sports, Inc."].

Definition td_text (td : node) : list string :=
  let text := cut_at CELL_MARKERS (get_text_sep NL td) in
  if truthy (strip text) then [strip text] else [].

(** Source lines 177-184: [transcript_parts] when the paragraph loop is
    over. *)
Definition paragraph_parts (s : soup) : list string :=
  match main_td s with
  | Some td => collect_paragraphs (paragraph_texts td)
  | None => []
  end.

(** Source lines 177-190: [transcript_parts] after the test
    [if not transcript_parts and main_td]. *)
Definition transcript_parts (s : soup) : list string :=
  match paragraph_parts s, main_td s with
  | [], Some td => td_text td
  | parts, _ => parts
  end.

(** The id test of [soup.find(id=re.compile(r"content|main|transcript",
    re.I))]: the pattern is searched for in the value, letter case
    ignored. *)
Definition id_matches (n : node) : bool :=
  match attr "id" n with
  | Some v => any_in ["content"; "main"; "transcript"] (lower v)
  | None => false
  end.

(** Source line 199. *)
Definition main_region (s : soup) : option node :=
  match head (List.filter id_matches (soup_descendants s)) with
  | Some m => Some m
  | None => soup_find "main" s
  end.

Definition is_noise (nm : string) : bool :=
  String.eqb nm "script" || String.eqb nm "style" || String.eqb nm "nav".

Definition FALLBACK_MARKERS : list string :=
  ["FastScripts Transcript"; "ASAP Sports, Inc."; "Subscribe to RSS"].

(** Source lines 199-203: the flattened text of the region chosen by
    id, else of the main element, else of the body, else of the page. *)
Definition region_text (s : soup) : string :=
  match main_region s with
  | Some m => get_text_sep NL m
  | None =>
      match soup_find "body" s with
      | Some b => get_text_sep NL b
      | None => soup_get_text_sep NL s
      end
  end.

(** Source lines 195-207.  The call decomposes every script, style and
    nav element of the page it is given, so the page after the call is
    returned with the text.  (An element is always true in Python, so the
    test [if not body] of line 201 never holds.) *)
Definition _fallback_transcript_text (s : soup) : string * soup :=
  let s' := decompose_all is_noise s in
  (strip (cut_at FALLBACK_MARKERS (region_text s')), s').

(** Source lines 120-192.  The argument is [None] for a page that could
    not be had; the result is the dict and the page as the call leaves
    it. *)
Definition extract_transcript_metadata_and_text (s : option soup)
  : data * option soup :=
  match s with
  | None => (empty_data, None)
  | Some s =>
      let d := read_h3 s (read_h2 s (read_h1 s empty_data)) in
      match transcript_parts s with
      | [] =>
          let '(t, s') := _fallback_transcript_text s in
          (set_transcript d t, Some s')
      | parts => (set_transcript d (join (NL +:+ NL) parts), Some s)
      end
  end.

(** ** The same extraction with what can raise written out

    In Python a method call on [None] raises [AttributeError] and
    [str.split] with an empty separator raises [ValueError].  The two
    functions above are written again with every receiver that may be
    [None] as an [option] and every such call as [call], so that "does
    not raise" is a statement about the code and not about the notation
    it is written in. *)

Module Raising.

Inductive pyexn : Type := AttributeError | ValueError.

Definition Py (A : Type) : Type := pyexn + A.

#[global] Instance py_ret : MRet Py := fun A x => inr x.
#[global] Instance py_bind : MBind Py :=
  fun A B f m => match m with inl e => inl e | inr x => f x end.

(** [recv.method(...)] *)
Definition call {A B : Type} (recv : option A) (method : A -> B) : Py B :=
  match recv with
  | Some x => mret (method x)
  | None => inl AttributeError
  end.

(** Truthiness of a value that is an element or [None]. *)
Definition given {A : Type} (o : option A) : bool :=
  match o with Some _ => true | None => false end.

Definition no_parts (l : list string) : bool :=
  match l with [] => true | _ => false end.

(** [text.split(marker)[0]] *)
Definition split0 (text marker : string) : Py string :=
  if is_empty marker then inl ValueError else mret (split_head marker text).

Definition cut_at (markers : list string) (text : string) : Py string :=
  fold_left (fun acc marker =>
               t ← acc;
               if contains marker t then split0 t marker else mret t)
            markers (mret text).

(** Source lines 195-207. *)
Definition _fallback_transcript_text (soup : option Bs4.soup)
  : Py (string * Bs4.soup) :=
  s' ← call soup (decompose_all is_noise);
  text ← cut_at FALLBACK_MARKERS (region_text s');
  mret (strip text, s').

(** Source lines 120-192. *)
Definition extract_transcript_metadata_and_text (soup : option Bs4.soup)
  : Py (data * option Bs4.soup) :=
  let data := empty_data in
  if negb (given soup) then mret (data, soup)
  else
    h1 ← call soup (soup_find "h1");
    data ← (if given h1
            then t ← call h1 text_of;
                 mret (set_interview_title (set_event data t) t)
            else mret data);
    h2 ← call soup (soup_find "h2");
    data ← (if given h2
            then t ← call h2 text_of;
                 mret (if is_date t then set_date data t else data)
            else mret data);
    texts ← call soup h3_texts;
    let data := classify_all data texts in
    first_h1 ← call soup (soup_find "h1");
    main_td ← (if given first_h1
               then h1' ← call soup (soup_find_ctx "h1");
                    call h1' (fun c => find_parent "td" (snd c))
               else mret None);
    parts ← (if given main_td
             then ps ← call main_td paragraph_texts;
                  mret (collect_paragraphs ps)
             else mret []);
    parts ← (if no_parts parts && given main_td
             then text ← call main_td (get_text_sep NL);
                  text ← cut_at CELL_MARKERS text;
                  mret (if truthy (strip text) then [strip text] else [])
             else mret parts);
    if no_parts parts
    then r ← _fallback_transcript_text soup;
         mret (set_transcript data (fst r), Some (snd r))
    else mret (set_transcript data (join (NL +:+ NL) parts), soup).

End Raising.

(** ** The CSV store *)

Module Csv.

(** What reading can raise. [except (csv.Error, UnicodeDecodeError)]
    catches the first two; [OtherError] stands for any other class. *)
Inductive exn : Type := csv_Error | UnicodeDecodeError | OtherError.

(** What [csv.reader] does at each [next]: yield the fields of one
    record, or raise. *)
Inductive line : Type :=
| Rec (fields : list string)
| Fault (e : exn).

(** The file at [csv_path]: absent, or the lines its reader goes through
    (none for a file of size 0). *)
Inductive file : Type :=
| Missing
| File (lines : list line).

Definition caught (e : exn) : bool :=
  match e with
  | csv_Error | UnicodeDecodeError => true
  | OtherError => false
  end.

(** [csv.DictReader.fieldnames]: the first record, [None] at the end of
    the file; a fault at the first line is raised. *)
Definition fieldnames (ls : list line)
  : exn + (option (list string) * list line) :=
  match ls with
  | [] => inr (None, [])
  | Rec fs :: rest => inr (Some fs, rest)
  | Fault e :: _ => inl e
  end.

(** A row dict of [csv.DictReader], on its [str] keys: a field of the
    record, or [None] (the restval) for a name the record is too short
    for. *)
Fixpoint zip_row (names fields : list string)
         (d : gmap string (option string)) : gmap string (option string) :=
  match names, fields with
  | k :: ks, v :: vs => zip_row ks vs (<[k := Some v]> d)
  | k :: ks, [] => zip_row ks [] (<[k := None]> d)
  | [], _ => d
  end.

Definition dict_row (names fields : list string)
  : gmap string (option string) :=
  zip_row names fields ∅.

(** [row.get("interview_id")] when it is a non-empty [str]. *)
Definition row_id (row : gmap string (option string)) : option string :=
  match row !! "interview_id" with
  | Some (Some v) => if truthy v then Some v else None
  | _ => None
  end.

(** Source lines 48-50: the loop over the rows, with the set built so
    far and the exception that ended the loop, if one did.  DictReader
    skips records with no field. *)
Fixpoint scan_rows (names : list string) (ls : list line)
         (ids : gset string) : gset string * option exn :=
  match ls with
  | [] => (ids, None)
  | Fault e :: _ => (ids, Some e)
  | Rec [] :: rest => scan_rows names rest ids
  | Rec fs :: rest =>
      match row_id (dict_row names fs) with
      | Some v => scan_rows names rest ({[strip v]} ∪ ids)
      | None => scan_rows names rest ids
      end
  end.

(** Source lines 46-50, the body of the [try]. *)
Definition scan (ls : list line) : gset string * option exn :=
  match fieldnames ls with
  | inl e => (∅, Some e)
  | inr (Some names, rest) =>
      if negb (bool_decide (names = [])) && bool_decide ("interview_id" ∈ names)
      then scan_rows names rest ∅
      else (∅, None)
  | inr (None, _) => (∅, None)
  end.

(** Source lines 39-53. *)
Definition load_scraped_ids (f : file) : exn + gset string :=
  match f with
  | Missing => inr ∅
  | File ls =>
      match scan ls with
      | (ids, None) => inr ids
      | (ids, Some e) => if caught e then inr ids else inl e
      end
  end.

Definition CSV_COLUMNS : list string :=
  ["player_name"; "interview_title"; "date"; "event"; "venue"; "team";
   "session_type"; "interview_id"; "url"; "transcript"].

(** Source lines 232-238. *)
Definition ensure_csv_header (f : file) : file :=
  match f with
  | Missing | File [] => File [Rec CSV_COLUMNS]
  | File ls => File ls
  end.

(** The dict returned by [scrape_interview]: the extracted dict with the
    keys [interview_id] and [url] added. *)
Record row : Type := mk_row {
  row_data : data;
  interview_id : string;
  url : string
}.

(** The record [csv.DictWriter.writerow] writes, in column order. *)
Definition csv_fields (r : row) : list string :=
  let d := row_data r in
  [player_name d; interview_title d; date d; event d; venue d; team d;
   session_type d; interview_id r; url r; transcript d].

(** Source lines 241-245: the record is added after what the store
    holds (a store that is not there is created, with no header).  The
    line added stands for the record written.  A later reader yields it
    back as these fields only if each field is within its field limit
    (131072 characters unless changed) and the store ended with a line
    end before the call; the statements about a later run take the store
    that run opens as its reader sees it, and do not assume that it is
    the result of this function. *)
Definition append_row (f : file) (r : row) : file :=
  match f with
  | Missing => File [Rec (csv_fields r)]
  | File ls => File (ls ++ [Rec (csv_fields r)])%list
  end.

End Csv.
Import Csv.

(** ** Link extraction and the crawl

    [urllib] and the network are outside the program.  They are taken as
    parameters: [urljoin] is [urllib.parse.urljoin], [query_ids url] is
    [parse_qs(urlparse(url).query).get("id", [])], and [net n url] is what
    the request number [n] (counted from 0) receives for [url]: the parsed
    page, or [None] when [requests] raises. *)

(** The page a request is made for.  [get_soup] does not know it; the tag
    is kept in the log of requests so that statements can tell the three
    call sites of [run] and [scrape_interview] apart. *)
Inductive role : Type := LetterPage | PlayerPage | InterviewPage.

Record request : Type := mk_request {
  req_role : role;
  req_url : string;
  req_ok : bool
}.

(** What [run] holds while it loops: the store, [scraped_ids],
    [total_new], and the requests made so far, oldest first. *)
Record crawl : Type := mk_crawl {
  csv_file : file;
  scraped_ids : gset string;
  total_new : nat;
  requests : list request
}.

Definition BASE_URL : string := "https://www.asapsports.com".
Definition CATEGORY_ID : string := "2".

(** Source lines 66-71. *)
Definition get_letter_urls : list string :=
  map (fun letter =>
         BASE_URL +:+ "/show_player.php?category=" +:+ CATEGORY_ID
         +:+ "&letter=" +:+ String letter EmptyString)
      (list_ascii_of_string "abcdefghijklmnopqrstuvwxyz").

(** [re.sub(r"^\[|\]$", "", s)]: an opening bracket at the start goes,
    and so does a closing bracket at the end (or before a newline that
    ends the text) of what is left. *)
Fixpoint drop_closing (s : string) : string :=
  match s with
  | EmptyString => EmptyString
  | String c s' =>
      if Ascii.eqb c "]"%char && (String.eqb s' "" || String.eqb s' NL)
      then s'
      else String c (drop_closing s')
  end.

Definition unbracket (s : string) : string :=
  match s with
  | String "["%char s' => drop_closing s'
  | _ => drop_closing s
  end.

(** [l[:n]] for [n : int | None]. *)
Definition slice_to {A : Type} (l : list A) (n : option Z) : list A :=
  match n with
  | None => l
  | Some k =>
      if (k <? 0)%Z then take (Z.to_nat (Z.of_nat (length l) + k)) l
      else take (Z.to_nat k) l
  end.

(** [soup.find_all("a", href=True)], each anchor with its ancestors. *)
Definition is_anchor (n : node) : bool :=
  is_tag "a" n && bool_decide (is_Some (attr "href" n)).

Definition anchors_ctx (s : soup) : list (node * list node) :=
  List.filter (fun x => is_anchor (fst x)) (walk_soup s).

Definition anchors (s : soup) : list node := map fst (anchors_ctx s).

Definition href (a : node) : string := default "" (attr "href" a).

Section Crawl.

Variable urljoin : string -> string -> string.
Variable query_ids : string -> list string.
Variable net : nat -> string -> option soup.

(** Source lines 80-87: one round of the loop, on [seen] and [out]. *)
Definition player_step (acc : gset string * list (string * string))
           (a : node) : gset string * list (string * string) :=
  let '(seen, out) := acc in
  if contains "show_player.php?id=" (href a)
     && negb (contains "letter=" (href a))
  then
    let url := urljoin BASE_URL (href a) in
    let name := strip (get_text a) in
    if truthy name && negb (bool_decide (url ∈ seen))
    then ({[url]} ∪ seen, (out ++ [(url, name)])%list)
    else acc
  else acc.

(** Source lines 74-88. *)
Definition get_player_links (s : option soup) : list (string * string) :=
  match s with
  | None => []
  | Some s => snd (fold_left player_step (anchors s) (∅, []))
  end.

(** Source lines 97-109: what one anchor adds to [out], if anything. *)
Definition interview_link (x : node * list node)
  : option (string * string * string) :=
  let '(a, anc) := x in
  if negb (contains "show_interview.php?id=" (href a)) then None
  else
    let url := urljoin BASE_URL (href a) in
    let title := strip (get_text a) in
    if negb (truthy title) then None
    else
      let date_ :=
        match find_parent "tr" anc with
        | Some tr =>
            match find "nobr" tr with
            | Some nobr => unbracket (strip (get_text nobr))
            | None => ""
            end
        | None => ""
        end in
      Some (url, title, date_).

(** Source lines 91-110. *)
Definition get_interview_links (s : option soup)
  : list (string * string * string) :=
  match s with
  | None => []
  | Some s => omap interview_link (anchors_ctx s)
  end.

(** Source lines 113-117. *)
Definition parse_interview_id (url : string) : option string :=
  head (query_ids url).

(** Source lines 56-63, with the request added to the log. *)
Definition get_soup (st : crawl) (r : role) (url : string)
  : option soup * crawl :=
  let page := net (length (requests st)) url in
  (page,
   mk_crawl (csv_file st) (scraped_ids st) (total_new st)
            (requests st ++ [mk_request r url (bool_decide (is_Some page))])%list).

(** Source lines 210-229.  The arguments that share a name with a key of
    the dict are written with a final underscore. *)
Definition scrape_interview (st : crawl) (url_ interview_id_ player_name_
                             interview_title_ date_from_player_page : string)
  : option row * crawl :=
  let '(soup, st1) := get_soup st InterviewPage url_ in
  match soup with
  | None => (None, st1)
  | Some _ =>
      let d := fst (extract_transcript_metadata_and_text soup) in
      let d := set_player_name d player_name_ in
      let d := set_interview_title d
                 (if truthy (interview_title d) then interview_title d
                  else interview_title_) in
      let d := set_date d
                 (if truthy date_from_player_page then date_from_player_page
                  else date d) in
      (Some (mk_row d interview_id_ url_), st1)
  end.

(** Source lines 277-289: one round of the loop over [interviews]. *)
Definition handle_interview (player_name_ : string) (st : crawl)
           (link : string * string * string) : crawl :=
  let '(interview_url, interview_title_, date_on_player_page) := link in
  match parse_interview_id interview_url with
  | None => st
  | Some iid =>
      if negb (truthy iid) then st
      else if bool_decide (iid ∈ scraped_ids st) then st
      else
        let '(row, st1) :=
          scrape_interview st interview_url iid player_name_ interview_title_
                           date_on_player_page in
        match row with
        | Some r =>
            mk_crawl (append_row (csv_file st1) r)
                     ({[iid]} ∪ scraped_ids st1)
                     (S (total_new st1))
                     (requests st1)
        | None => st1
        end
  end.

Definition handle_interviews (player_name_ : string) (st : crawl)
           (links : list (string * string * string)) : crawl :=
  fold_left (handle_interview player_name_) links st.

(** Source lines 272-289: one round of the loop over [players]. *)
Definition handle_player (st : crawl) (p : string * string) : crawl :=
  let '(player_url, player_name_from_letter) := p in
  let '(psoup, st1) := get_soup st PlayerPage player_url in
  let player_name_ :=
    match psoup with
    | Some ps =>
        match soup_find "h1" ps with
        | Some h1 => text_of h1
        | None => player_name_from_letter
        end
    | None => player_name_from_letter
    end in
  handle_interviews player_name_ st1 (get_interview_links psoup).

(** Source lines 268-289: one round of the loop over [letter_urls]. *)
Definition handle_letter (st : crawl) (letter_url : string) : crawl :=
  let '(soup, st1) := get_soup st LetterPage letter_url in
  fold_left handle_player (get_player_links soup) st1.

(** Source lines 248-290.  The result is the exception [load_scraped_ids]
    let through, or the state when the loops are over. *)
Definition run (csv_path : file) (resume : bool) (max_letters : option Z)
  : exn + crawl :=
  match (if resume then load_scraped_ids csv_path else inr ∅) with
  | inl e => inl e
  | inr ids =>
      inr (fold_left handle_letter
             (slice_to get_letter_urls max_letters)
             (mk_crawl (ensure_csv_header csv_path) ids 0 []))
  end.

End Crawl.

(** ** Pages and stand-ins used in the examples *)

Module Fixture.

(** [urljoin] for a base with no path and a reference that is a bare
    relative path, as the links of the site are. *)
Definition urljoin (base ref : string) : string := base +:+ "/" +:+ ref.

(** The text after the first occurrence of [m] in [s]. *)
Fixpoint after (m s : string) : option string :=
  if startswith m s then Some (substring (String.length m)
                                         (String.length s) s)
  else match s with
       | EmptyString => None
       | String _ s' => after m s'
       end.

(** The values of [id] in a query of the one form [...?id=VALUE]. *)
Definition query_ids (url : string) : list string :=
  match after "?id=" url with
  | Some v => if truthy v then [v] else []
  | None => []
  end.

Definition a (ref text : string) : node :=
  Elem "a" [("href", ref)] [Text text].

Definition el (nm : string) (children : list node) : node :=
  Elem nm [] children.

(** A transcript page whose main cell holds four paragraphs. *)
Definition page_four_paragraphs : soup :=
  [el "table" [el "tr" [el "td"
     [el "h1" [Text "World Series"];
      el "p" [Text "intro"];
      el "p" [Text "middle"];
      el "p" [Text "FastScripts Transcript footer"];
      el "p" [Text "trailing"]]]]].

(** A page with an h1 in a cell that has text and no paragraph, and a
    region with a content id elsewhere. *)
Definition page_cell_text : soup :=
  [el "table" [el "tr" [el "td" [el "h1" [Text "Title"]; Text "hello"]]];
   Elem "div" [("id", "content")] [Text "other"]].

(** A page with no h1, a nav bar and a line of text. *)
Definition page_nav : soup :=
  [el "html" [el "body" [el "nav" [Text "Home"]; el "div" [Text "hello"]]]].

(** A player page that lists the same interview twice. *)
Definition page_two_anchors : soup :=
  [a "show_interview.php?id=7" "Game 1"; a "show_interview.php?id=7" "Recap"].

(** A letter page that lists the same player twice. *)
Definition page_two_players : soup :=
  [a "show_player.php?id=5" "Jane Doe"; a "show_player.php?id=5" "J. Doe"].

(** A page made of h3 headings with the given texts. *)
Definition page_headings (hs : list string) : soup :=
  map (fun h => el "h3" [Text h]) hs.

(** [parse_qs] decodes the escapes of a value; [%20] is a blank.  This
    is [query_ids] with that one escape decoded. *)
Fixpoint unquote_blank (s : string) : string :=
  match s with
  | String "%" (String "2" (String "0" s')) => String " " (unquote_blank s')
  | String c s' => String c (unquote_blank s')
  | EmptyString => EmptyString
  end.

Definition query_ids_unquoted (url : string) : list string :=
  map unquote_blank (query_ids url).

(** A letter page with one player, and the page of that player with two
    interviews, the first with its date beside it. *)
Definition page_letter : soup := [a "show_player.php?id=5" "Jane Doe"].

Definition page_player : soup :=
  [el "h1" [Text "Jane Doe"];
   el "table"
      [el "tr" [el "td" [a "show_interview.php?id=7" "Game 1"];
                el "td" [el "nobr" [Text "[October 4, 2023]"]]];
       el "tr" [el "td" [a "show_interview.php?id=8" "Game 2"]]]].

(** A site that serves the letter pages, the player pages and interview 7,
    and fails on every other request. *)
Definition site (n : nat) (url : string) : option soup :=
  if contains "letter=" url then Some page_letter
  else if contains "show_player.php" url then Some page_player
  else if contains "show_interview.php?id=7" url
       then Some page_four_paragraphs
  else None.

(** A store that already holds the row of interview 7. *)
Definition row_7 : list string :=
  ["Jane Doe"; "World Series"; "October 4, 2023"; "World Series"; "";
   ""; ""; "7"; "https://www.asapsports.com/show_interview.php?id=7";
   "intro"].

Definition store_with_7 : file := File [Rec CSV_COLUMNS; Rec row_7].

(** The store a first run over one letter of [site] leaves. *)
Definition store_after_first_run : file :=
  File [Rec CSV_COLUMNS;
        Rec ["Jane Doe"; "World Series"; "October 4, 2023"; "World Series";
             ""; ""; ""; "7";
             "https://www.asapsports.com/show_interview.php?id=7";
             "intro" +:+ NL +:+ NL +:+ "middle"]].


(** A store that holds the row of interview 7 after a line at which the
    reader raises [csv.Error] (a line with a field over the field
    limit, say). *)
Definition store_7_after_fault : file :=
  File [Rec CSV_COLUMNS; Fault csv_Error; Rec row_7].

(** A player page whose link has an escaped blank after the identifier,
    the site that serves it, and the store a first run over one letter of
    that site leaves: the identifier is written with its blank. *)
Definition page_player_blank : soup :=
  [a "show_interview.php?id=7%20" "Game 1"].

Definition site_blank (n : nat) (url : string) : option soup :=
  if contains "letter=" url then Some page_letter
  else if contains "show_player.php" url then Some page_player_blank
  else if contains "show_interview.php?id=7" url
       then Some page_four_paragraphs
  else None.

Definition store_after_blank_run : file :=
  File [Rec CSV_COLUMNS;
        Rec ["Jane Doe"; "World Series"; ""; "World Series";
             ""; ""; ""; "7 ";
             "https://www.asapsports.com/show_interview.php?id=7%20";
             "intro" +:+ NL +:+ NL +:+ "middle"]].

End Fixture.

(** ** Vocabulary of the statements *)

(** Every character of the text is in the class [p]; the same of a text
    that is not empty. *)
Fixpoint all_of (p : ascii -> bool) (s : string) : bool :=
  match s with
  | EmptyString => true
  | String c s' => p c && all_of p s'
  end.

Definition some_of (p : ascii -> bool) (s : string) : bool :=
  truthy s && all_of p s.

(** No script, style or nav element in the subtree. *)
Fixpoint noise_free (n : node) : bool :=
  match n with
  | Text _ => true
  | Elem nm _ cs => negb (is_noise nm) && forallb noise_free cs
  end.



(** The row dicts [csv.DictReader] yields for a file: one for each
    record with a field that comes after the header and before any
    fault. *)
Fixpoint rows_of (names : list string) (ls : list line)
  : list (gmap string (option string)) :=
  match ls with
  | Rec [] :: rest => rows_of names rest
  | Rec fs :: rest => dict_row names fs :: rows_of names rest
  | _ => []
  end.

Definition rows_read (f : file) : list (gmap string (option string)) :=
  match f with
  | File (Rec names :: rest) => rows_of names rest
  | _ => []
  end.

(** The requests of a run; none when the run ended with an exception
    before its loops. *)
Definition requests_of (r : exn + crawl) : list request :=
  match r with
  | inl _ => []
  | inr st => requests st
  end.

(** A request for an interview page asks for no URL of identifier [x]. *)
Definition avoids (query_ids : string -> list string) (x : string)
           (r : request) : Prop :=
  req_role r = InterviewPage ->
  parse_interview_id query_ids (req_url r) <> Some x.

(** What the loops of [run] keep: [x] is skipped by the tests of source
    lines 279-282, and no request for an interview page was for [x]. *)
Definition skips (query_ids : string -> list string) (x : string)
           (st : crawl) : Prop :=
  (truthy x = false \/ x ∈ scraped_ids st)
  /\ Forall (avoids query_ids x) (requests st).

(** The link an anchor of a letter page stands for, if it passes the
    tests of source lines 82 and 85 other than the one on [seen]. *)
Definition player_candidate (urljoin : string -> string -> string)
           (a : node) : option (string * string) :=
  if contains "show_player.php?id=" (href a)
     && negb (contains "letter=" (href a))
     && truthy (strip (get_text a))
  then Some (urljoin BASE_URL (href a), strip (get_text a))
  else None.

(** Deduplication by URL as the specification words it: links in
    document order, the first link of each URL kept. *)
Fixpoint first_by_url (seen : gset string) (l : list (string * string))
  : list (string * string) :=
  match l with
  | [] => []
  | (u, n) :: rest =>
      if bool_decide (u ∈ seen) then first_by_url seen rest
      else (u, n) :: first_by_url ({[u]} ∪ seen) rest
  end.

(** One or two digits; exactly four digits. *)
Definition day_shape (s : string) : bool :=
  match s with
  | String a EmptyString => is_digit a
  | String a (String b EmptyString) => is_digit a && is_digit b
  | _ => false
  end.

Definition year_shape (s : string) : bool :=
  match s with
  | String a (String b (String c (String d EmptyString))) =>
      is_digit a && is_digit b && is_digit c && is_digit d
  | _ => false
  end.

(** A heading made of a capital, small letters, blanks, a day, perhaps a
    comma, blanks and a year. *)
Definition date_heading (u : ascii) (lows ws1 day : string) (comma : bool)
           (ws2 year : string) : string :=
  String u (lows +:+ ws1 +:+ day +:+ (if comma then "," else "")
            +:+ ws2 +:+ year).

(** A heading that is not empty and does not read as a date. *)
Definition plain_heading (t : string) : bool := truthy t && negb (is_date t).

(** The first text of a list that passes a test, the empty text when
    none does. *)
Definition first_text (p : string -> bool) (l : list string) : string :=
  default "" (head (List.filter p l)).

(** A text of the date shape: see [date_heading]. *)
Definition date_shaped (t : string) : Prop :=
  exists u lows ws1 day comma ws2 year,
    is_upper_AZ u = true /\ some_of is_lower_az lows = true
    /\ some_of is_space ws1 = true /\ day_shape day = true
    /\ some_of is_space ws2 = true /\ year_shape year = true
    /\ t = date_heading u lows ws1 day comma ws2 year.

(** A keyword field: empty, or a text that has one of the words when
    lower-cased. *)
Definition holds_word (words : list string) (t : string) : Prop :=
  t = "" \/ any_in words (lower t) = true.

(** The character [c] does not occur in the text. *)
Definition lacks (c : ascii) (s : string) : bool :=
  all_of (fun x => negb (Ascii.eqb x c)) s.

(** The lines of a store, none for a store that is not there. *)
Definition store_lines (f : file) : list line :=
  match f with
  | Missing => []
  | File ls => ls
  end.

Definition is_role (ro : role) (r : request) : bool :=
  match ro, req_role r with
  | LetterPage, LetterPage => true
  | PlayerPage, PlayerPage => true
  | InterviewPage, InterviewPage => true
  | _, _ => false
  end.

(** The URLs of the requests for an interview page that got a page, and
    of the requests for a letter page, oldest first. *)
Definition fetched (log : list request) : list string :=
  map req_url
      (List.filter (fun r => is_role InterviewPage r && req_ok r) log).

Definition letters_asked (log : list request) : list string :=
  map req_url (List.filter (is_role LetterPage) log).

(** The record a row is written as. *)
Definition as_line (r : row) : line := Rec (csv_fields r).

(** What the loops of [run] keep, for the lines [ls0] the store had
    when the loops began and the set [ids0] loaded then: the store is
    [ls0] followed by one record per row of [new], the count is their
    number, the known set is [ids0] with their identifiers, no
    identifier comes twice or was in [ids0], each is the one its URL
    resolves to, and the rows are those of the fetches that got a page. *)
Definition written (query_ids : string -> list string)
           (ls0 : list line) (ids0 : gset string)
           (new : list row) (st : crawl) : Prop :=
  csv_file st = File (ls0 ++ map as_line new)
  /\ total_new st = length new
  /\ scraped_ids st = list_to_set (map interview_id new) ∪ ids0
  /\ NoDup (map interview_id new)
  /\ Forall (fun r => truthy (interview_id r) = true
                      /\ (interview_id r ∉ ids0)
                      /\ parse_interview_id query_ids (url r)
                         = Some (interview_id r)) new
  /\ map url new = fetched (requests st).

(** The state a run ends in (a state with nothing in it when the run
    ended with an exception). *)
Definition state_of (r : exn + crawl) : crawl :=
  match r with
  | inr st => st
  | inl _ => mk_crawl Missing ∅ 0 []
  end.

(** A network that answers a URL the same way at every request. *)
Definition static (site : string -> option soup)
  : nat -> string -> option soup :=
  fun _ u => site u.

(** A link is settled for a known set on a static site: if it resolves
    to an identifier, that identifier is known or its page cannot be
    fetched. *)
Definition settled (query_ids : string -> list string)
           (site : string -> option soup) (ids : gset string)
           (link : string * string * string) : Prop :=
  forall iid,
    parse_interview_id query_ids (fst (fst link)) = Some iid ->
    truthy iid = true ->
    iid ∈ ids \/ site (fst (fst link)) = None.

(** Every link of every player of a letter page is settled. *)
Definition letter_settled (urljoin : string -> string -> string)
           (query_ids : string -> list string)
           (site : string -> option soup) (ids : gset string)
           (letter_url : string) : Prop :=
  Forall (fun p => Forall (settled query_ids site ids)
                          (get_interview_links urljoin (site (fst p))))
         (get_player_links urljoin (site letter_url)).

(** Store, count and known set are the same in two states. *)
Definition same_but_log (st st' : crawl) : Prop :=
  csv_file st' = csv_file st /\ total_new st' = total_new st
  /\ scraped_ids st' = scraped_ids st.

(** * Facts *)

(** ** Text *)

#[local] Arguments String.append !_ _ / : simpl nomatch.

Section TextFacts.

Lemma app_empty_r (s : string) : s +:+ "" = s.
Proof. induction s as [|c s IH]; simpl; [reflexivity | now rewrite IH]. Qed.

Lemma app_assoc_s (a b c : string) : (a +:+ b) +:+ c = a +:+ (b +:+ c).
Proof. induction a as [|x a IH]; simpl; [reflexivity | now rewrite IH]. Qed.

Lemma truthy_nonempty (s : string) : truthy s = true <-> s <> "".
Proof. destruct s; cbv [truthy is_empty negb]; split; congruence. Qed.

Lemma truthy_false (s : string) : truthy s = false <-> s = "".
Proof. destruct s; cbv [truthy is_empty negb]; split; congruence. Qed.

End TextFacts.

(** ** The matcher decides the language of a pattern *)

Section RegexFacts.

Lemma nullable_complete (r : regex) :
  Matches r "" -> nullable r = true.
Proof.
  intros H. remember "" as s eqn:Hs.
  induction H as [ | p c Hp | r1 r2 s1 s2 H1 IH1 H2 IH2
                 | r1 r2 s H IH | r1 r2 s H IH | r | r s1 s2 H1 IH1 H2 IH2 ];
    simpl; try reflexivity; try discriminate.
  - destruct s1; [|discriminate]. simpl in Hs. subst s2.
    now rewrite IH1, IH2.
  - now rewrite IH.
  - rewrite IH by assumption. now rewrite orb_true_r.
Qed.

Lemma deriv_complete (r : regex) (c : ascii) (s : string) :
  Matches r (String c s) -> Matches (deriv c r) s.
Proof.
  intros H. remember (String c s) as cs eqn:Hcs. revert s Hcs.
  induction H as [ | p c' Hp | r1 r2 s1 s2 H1 IH1 H2 IH2
                 | r1 r2 s' H IH | r1 r2 s' H IH | r | r s1 s2 H1 IH1 H2 IH2 ];
    intros s Hcs; simpl; try discriminate.
  - injection Hcs as -> <-. rewrite Hp. constructor.
  - destruct s1 as [|x s1'].
    + simpl in Hcs. subst s2.
      rewrite (nullable_complete _ H1).
      apply MAltR. now apply IH2.
    + simpl in Hcs. injection Hcs as -> <-.
      destruct (nullable r1).
      * apply MAltL. constructor; [now apply IH1 | assumption].
      * constructor; [now apply IH1 | assumption].
  - apply MAltL. now apply IH.
  - apply MAltR. now apply IH.
  - destruct s1 as [|x s1'].
    + simpl in Hcs. now apply IH2.
    + simpl in Hcs. injection Hcs as -> <-.
      constructor; [now apply IH1 | assumption].
Qed.

Lemma re_fullmatch_complete (s : string) :
  forall r, Matches r s -> re_fullmatch r s = true.
Proof.
  induction s as [|c s IH]; intros r H; simpl.
  - now apply nullable_complete.
  - apply IH. now apply deriv_complete.
Qed.

Lemma nullable_sound (r : regex) :
  nullable r = true -> Matches r "".
Proof.
  induction r as [ | | p | r1 IH1 r2 IH2 | r1 IH1 r2 IH2 | r IH ];
    simpl; intros H; try discriminate.
  - constructor.
  - apply andb_true_iff in H as [H1 H2].
    change "" with ("" +:+ ""). constructor; auto.
  - apply orb_true_iff in H as [H|H]; [apply MAltL | apply MAltR]; auto.
  - constructor.
Qed.

Lemma deriv_sound (r : regex) :
  forall c s, Matches (deriv c r) s -> Matches r (String c s).
Proof.
  induction r as [ | | p | r1 IH1 r2 IH2 | r1 IH1 r2 IH2 | r IH ];
    simpl; intros c s H.
  - inversion H.
  - inversion H.
  - destruct (p c) eqn:Hp; inversion H; subst. now constructor.
  - destruct (nullable r1) eqn:Hn.
    + inversion H as [ | | | ? ? ? HL | ? ? ? HR | | ]; subst.
      * inversion HL as [ | | ? ? s1 s2 Ha Hb | | | | ]; subst.
        change (String c (s1 +:+ s2)) with (String c s1 +:+ s2).
        constructor; auto.
      * change (String c s) with ("" +:+ String c s).
        constructor; [now apply nullable_sound | auto].
    + inversion H as [ | | ? ? s1 s2 Ha Hb | | | | ]; subst.
      change (String c (s1 +:+ s2)) with (String c s1 +:+ s2).
      constructor; auto.
  - inversion H; subst; [apply MAltL | apply MAltR]; auto.
  - inversion H as [ | | ? ? s1 s2 Ha Hb | | | | ]; subst.
    change (String c (s1 +:+ s2)) with (String c s1 +:+ s2).
    constructor; auto.
Qed.

Lemma re_fullmatch_sound (s : string) :
  forall r, re_fullmatch r s = true -> Matches r s.
Proof.
  induction s as [|c s IH]; intros r H; simpl in H.
  - now apply nullable_sound.
  - apply deriv_sound. now apply IH.
Qed.

(** The matcher is correct for the language of the pattern. *)
Lemma re_fullmatch_spec (r : regex) (s : string) :
  re_fullmatch r s = true <-> Matches r s.
Proof. split; [apply re_fullmatch_sound | apply re_fullmatch_complete]. Qed.

End RegexFacts.

(** ** The date pattern *)

Section DateFacts.

Lemma star_class (p : ascii -> bool) (s : string) :
  all_of p s = true -> Matches (Star (Class p)) s.
Proof.
  induction s as [|c s IH]; simpl; intros H.
  - apply MStar0.
  - apply andb_true_iff in H as [Hc Hs].
    change (String c s) with (String c "" +:+ s).
    apply MStarS; [now apply MClass | auto].
Qed.

Lemma plus_class (p : ascii -> bool) (s : string) :
  some_of p s = true -> Matches (Plus (Class p)) s.
Proof.
  unfold some_of. destruct s as [|c s]; simpl; [discriminate|].
  intros H. apply andb_true_iff in H as [Hc Hs].
  change (String c s) with (String c "" +:+ s).
  apply MCat; [now apply MClass | now apply star_class].
Qed.

Lemma day_matches (s : string) :
  day_shape s = true ->
  Matches (Cat (Class is_digit) (Opt (Class is_digit))) s.
Proof.
  destruct s as [|a [|b [|c s]]]; simpl; try discriminate; intros H.
  - change (String a "") with (String a "" +:+ "").
    apply MCat; [now apply MClass | apply MAltR; apply MEps].
  - apply andb_true_iff in H as [Ha Hb].
    change (String a (String b "")) with (String a "" +:+ String b "").
    apply MCat; [now apply MClass | apply MAltL; now apply MClass].
Qed.

Lemma year_matches (s : string) :
  year_shape s = true ->
  Matches (Cat (Class is_digit) (Cat (Class is_digit)
          (Cat (Class is_digit) (Class is_digit)))) s.
Proof.
  destruct s as [|a [|b [|c [|d [|e s]]]]]; simpl; try discriminate.
  intros H. apply andb_true_iff in H as [H Hd].
  apply andb_true_iff in H as [H Hc]. apply andb_true_iff in H as [Ha Hb].
  change (String a (String b (String c (String d ""))))
    with (String a "" +:+ String b "" +:+ String c "" +:+ String d "").
  repeat (apply MCat; [now apply MClass|]). now apply MClass.
Qed.

Lemma comma_matches (comma : bool) :
  Matches (Opt (Lit ","%char)) (if comma then "," else "").
Proof.
  destruct comma; [apply MAltL; now apply MClass | apply MAltR; apply MEps].
Qed.


Lemma date_heading_truthy u lows ws1 day comma ws2 year :
  truthy (date_heading u lows ws1 day comma ws2 year) = true.
Proof. reflexivity. Qed.

End DateFacts.

(** ** The loop over the h3 headings *)

Section HeadingFacts.

Lemma fold_left_inv {A B : Type} (P : A -> Prop) (f : A -> B -> A) :
  (forall a b, P a -> P (f a b)) ->
  forall l a, P a -> P (fold_left f l a).
Proof.
  intros Hf l. induction l as [|b l IH]; simpl; intros a Ha; auto.
Qed.





Lemma classify_h3_keeps_date (d : data) (it : nat * string) :
  truthy (date d) = true -> date (classify_h3 d it) = date d.
Proof.
  intros H. destruct it as [i t]. unfold classify_h3. rewrite H.
  cbn [negb andb].
  repeat match goal with
         | |- context [if ?c then _ else _] =>
             let E := fresh "E" in destruct c eqn:E
         end; reflexivity.
Qed.

Lemma classify_h3_keeps_name (d : data) (it : nat * string) :
  truthy (player_name d) = true ->
  player_name (classify_h3 d it) = player_name d.
Proof.
  intros H. destruct it as [i t]. unfold classify_h3. rewrite H.
  cbn [negb andb].
  repeat match goal with
         | |- context [if ?c then _ else _] =>
             let E := fresh "E" in destruct c eqn:E
         end; reflexivity.
Qed.

Lemma classify_h3_keeps_team (d : data) (it : nat * string) :
  truthy (team d) = true -> team (classify_h3 d it) = team d.
Proof.
  intros H. destruct it as [i t]. unfold classify_h3. rewrite H.
  cbn [negb andb].
  repeat match goal with
         | |- context [if ?c then _ else _] =>
             let E := fresh "E" in destruct c eqn:E
         end; reflexivity.
Qed.

Lemma fold_keeps_date (l : list (nat * string)) :
  forall d, truthy (date d) = true ->
  date (fold_left classify_h3 l d) = date d.
Proof.
  induction l as [|it l IH]; simpl; intros d H; [reflexivity|].
  rewrite IH; rewrite classify_h3_keeps_date; auto.
Qed.

Lemma fold_keeps_name (l : list (nat * string)) :
  forall d, truthy (player_name d) = true ->
  player_name (fold_left classify_h3 l d) = player_name d.
Proof.
  induction l as [|it l IH]; simpl; intros d H; [reflexivity|].
  rewrite IH; rewrite classify_h3_keeps_name; auto.
Qed.

Lemma fold_keeps_team (l : list (nat * string)) :
  forall d, truthy (team d) = true ->
  team (fold_left classify_h3 l d) = team d.
Proof.
  induction l as [|it l IH]; simpl; intros d H; [reflexivity|].
  rewrite IH; rewrite classify_h3_keeps_team; auto.
Qed.





End HeadingFacts.

(** ** Properties of the headings *)



(** C3 on the code: a second heading with a venue word replaces the
    venue set by the first, and a second heading with a session word
    replaces the session type. *)
Theorem venue_and_session_last_match_wins :
  venue (fst (extract_transcript_metadata_and_text
                (Some (Fixture.page_headings
                         ["Jane Doe"; "Fenway Park"])))) = "Fenway Park"
  /\ venue (fst (extract_transcript_metadata_and_text
                   (Some (Fixture.page_headings
                            ["Jane Doe"; "Fenway Park"; "Wrigley Field"]))))
     = "Wrigley Field"
  /\ session_type (fst (extract_transcript_metadata_and_text
                          (Some (Fixture.page_headings
                                   ["Jane Doe"; "Press Conference"]))))
     = "Press Conference"
  /\ session_type (fst (extract_transcript_metadata_and_text
                          (Some (Fixture.page_headings
                                   ["Jane Doe"; "Press Conference";
                                    "Media Session"]))))
     = "Media Session".
Proof. vm_compute. repeat split; reflexivity. Qed.

(** The fields the loop guards are set at most once: a date, a player
    name or a team that is set is not changed by any later heading. *)
Lemma guarded_fields_set_once (d : data) (texts : list string) :
  (truthy (date d) = true -> date (classify_all d texts) = date d)
  /\ (truthy (player_name d) = true ->
      player_name (classify_all d texts) = player_name d)
  /\ (truthy (team d) = true -> team (classify_all d texts) = team d).
Proof.
  unfold classify_all. repeat split; intros H.
  - now apply fold_keeps_date.
  - now apply fold_keeps_name.
  - now apply fold_keeps_team.
Qed.

(** ** The body text *)

Section BodyFacts.

(** The paragraph loop keeps the non-empty texts that come before the
    first trailer paragraph. *)
Lemma collect_paragraphs_cut (pre post : list string) (m : string) :
  Forall (fun t => is_trailer t = false) pre -> is_trailer m = true ->
  collect_paragraphs (pre ++ m :: post) = List.filter truthy pre.
Proof.
  intros Hpre Hm. induction Hpre as [|t pre Ht Hpre IH]; simpl.
  - now rewrite Hm.
  - rewrite Ht. destruct (truthy t); now rewrite IH.
Qed.

Lemma collect_paragraphs_all (l : list string) :
  Forall (fun t => is_trailer t = false) l ->
  collect_paragraphs l = List.filter truthy l.
Proof.
  intros H. induction H as [|t l Ht Hl IH]; simpl; [reflexivity|].
  rewrite Ht. destruct (truthy t); now rewrite IH.
Qed.

(** No kept paragraph is empty or holds a trailer. *)
Lemma collect_paragraphs_clean (l : list string) :
  Forall (fun t => truthy t = true /\ is_trailer t = false)
         (collect_paragraphs l).
Proof.
  induction l as [|t l IH]; simpl; [constructor|].
  destruct (is_trailer t) eqn:Et; [constructor|].
  destruct (truthy t) eqn:Ht; [constructor; auto | assumption].
Qed.

Lemma transcript_of_parts (s : soup) (p : string) (ps : list string) :
  transcript_parts s = p :: ps ->
  extract_transcript_metadata_and_text (Some s)
  = (set_transcript (read_h3 s (read_h2 s (read_h1 s empty_data)))
                    (join (NL +:+ NL) (p :: ps)),
     Some s).
Proof.
  intros H. unfold extract_transcript_metadata_and_text. now rewrite H.
Qed.

Lemma transcript_of_fallback (s : soup) :
  transcript_parts s = [] ->
  extract_transcript_metadata_and_text (Some s)
  = (set_transcript (read_h3 s (read_h2 s (read_h1 s empty_data)))
                    (fst (_fallback_transcript_text s)),
     Some (snd (_fallback_transcript_text s))).
Proof.
  intros H. unfold extract_transcript_metadata_and_text. rewrite H.
  now destruct (_fallback_transcript_text s).
Qed.

Lemma transcript_parts_paragraphs (s : soup) (td : node) :
  main_td s = Some td -> collect_paragraphs (paragraph_texts td) <> [] ->
  transcript_parts s = collect_paragraphs (paragraph_texts td).
Proof.
  intros Htd Hne. unfold transcript_parts, paragraph_parts. rewrite Htd.
  destruct (collect_paragraphs (paragraph_texts td)); congruence.
Qed.

End BodyFacts.

(** C4.  When the paragraphs of the main cell read "intro", "middle",
    "FastScripts Transcript footer", "trailing", the body text is "intro",
    a blank line, "middle".  In general the non-empty paragraphs before
    the first one that holds a trailer are kept, that paragraph and the
    ones after it are not, and the kept ones are joined by a blank
    line. *)
Theorem body_truncation (s : soup) (td : node) :
  main_td s = Some td ->
  (paragraph_texts td
   = ["intro"; "middle"; "FastScripts Transcript footer"; "trailing"] ->
   transcript (fst (extract_transcript_metadata_and_text (Some s)))
   = "intro" +:+ NL +:+ NL +:+ "middle")
  /\ (forall pre m post,
        paragraph_texts td = (pre ++ m :: post)%list ->
        Forall (fun t => is_trailer t = false) pre ->
        is_trailer m = true ->
        List.filter truthy pre <> [] ->
        transcript (fst (extract_transcript_metadata_and_text (Some s)))
        = join (NL +:+ NL) (List.filter truthy pre)).
Proof.
  intros Htd.
  assert (Hgen : forall pre m post,
             paragraph_texts td = (pre ++ m :: post)%list ->
             Forall (fun t => is_trailer t = false) pre ->
             is_trailer m = true ->
             List.filter truthy pre <> [] ->
             transcript (fst (extract_transcript_metadata_and_text (Some s)))
             = join (NL +:+ NL) (List.filter truthy pre)).
  { intros pre m post Hp Hpre Hm Hne.
    assert (Hc : collect_paragraphs (paragraph_texts td)
                 = List.filter truthy pre).
    { rewrite Hp. now apply collect_paragraphs_cut. }
    assert (Hparts : transcript_parts s = List.filter truthy pre).
    { rewrite (transcript_parts_paragraphs s td Htd); congruence. }
    destruct (List.filter truthy pre) as [|p ps] eqn:E; [congruence|].
    now rewrite (transcript_of_parts s p ps Hparts). }
  split; [|exact Hgen].
  intros Hp.
  rewrite (Hgen ["intro"; "middle"] "FastScripts Transcript footer"
                ["trailing"] Hp).
  - reflexivity.
  - repeat constructor.
  - reflexivity.
  - discriminate.
Qed.

(** The page of the example has the four paragraphs in its main cell. *)
Lemma body_truncation_fixture :
  transcript (fst (extract_transcript_metadata_and_text
                     (Some Fixture.page_four_paragraphs)))
  = "intro" +:+ NL +:+ NL +:+ "middle".
Proof.
  refine (proj1 (body_truncation Fixture.page_four_paragraphs
                   (Fixture.el "td"
                      [Fixture.el "h1" [Text "World Series"];
                       Fixture.el "p" [Text "intro"];
                       Fixture.el "p" [Text "middle"];
                       Fixture.el "p" [Text "FastScripts Transcript footer"];
                       Fixture.el "p" [Text "trailing"]])
                   _) _); reflexivity.
Defined.

(** ** Substrings, cuts and strips *)

Section SubstringFacts.

Lemma startswith_app (m q : string) : startswith m (m +:+ q) = true.
Proof.
  induction m as [|a m IH]; simpl; [reflexivity|].
  now rewrite Ascii.eqb_refl, IH.
Qed.

Lemma startswith_inv (m s : string) :
  startswith m s = true -> exists q, s = m +:+ q.
Proof.
  revert s. induction m as [|a m IH]; intros s H.
  - now exists s.
  - destruct s as [|b s]; simpl in H; [discriminate|].
    apply andb_true_iff in H as [Hab Hs].
    apply Ascii.eqb_eq in Hab as ->.
    destruct (IH s Hs) as [q ->]. now exists q.
Qed.

Lemma startswith_weaken (m r q : string) :
  startswith m r = true -> startswith m (r +:+ q) = true.
Proof.
  intros H. destruct (startswith_inv _ _ H) as [q' ->].
  rewrite app_assoc_s. apply startswith_app.
Qed.

Lemma contains_app_l (m p q : string) :
  contains m p = true -> contains m (p +:+ q) = true.
Proof.
  induction p as [|c p IH]; intros H.
  - simpl in H. rewrite orb_false_r in H.
    destruct m; [|discriminate]. now destruct q.
  - simpl in H. apply orb_true_iff in H as [H|H].
    + change (String c p +:+ q) with (String c (p +:+ q)).
      change (contains m (String c (p +:+ q)))
        with (startswith m (String c (p +:+ q)) || contains m (p +:+ q)).
      change (String c (p +:+ q)) with (String c p +:+ q).
      now rewrite (startswith_weaken _ _ _ H).
    + change (String c p +:+ q) with (String c (p +:+ q)).
      change (contains m (String c (p +:+ q)))
        with (startswith m (String c (p +:+ q)) || contains m (p +:+ q)).
      rewrite (IH H). apply orb_true_r.
Qed.

Lemma contains_app_r (m p q : string) :
  contains m q = true -> contains m (p +:+ q) = true.
Proof.
  intros H. induction p as [|c p IH]; [exact H|].
  change (String c p +:+ q) with (String c (p +:+ q)).
  change (contains m (String c (p +:+ q)))
    with (startswith m (String c (p +:+ q)) || contains m (p +:+ q)).
  rewrite IH. apply orb_true_r.
Qed.

(** [split_head m s] is the start of [s]. *)
Lemma split_head_prefix (m s : string) :
  exists q, s = split_head m s +:+ q.
Proof.
  induction s as [|c s [q IH]].
  - exists "". simpl. now destruct (startswith m "").
  - simpl. destruct (startswith m (String c s)).
    + now exists (String c s).
    + exists q. simpl. now rewrite <- IH.
Qed.

(** The text before the first occurrence of a marker does not hold the
    marker. *)
Lemma split_head_clean (m s : string) :
  m <> "" -> contains m (split_head m s) = false.
Proof.
  intros Hm. induction s as [|c s IH].
  - simpl. destruct m; [congruence|]. reflexivity.
  - simpl. destruct (startswith m (String c s)) eqn:E.
    + destruct m; [congruence|]. reflexivity.
    + change (contains m (String c (split_head m s)))
        with (startswith m (String c (split_head m s))
              || contains m (split_head m s)).
      rewrite IH, orb_false_r.
      destruct (startswith m (String c (split_head m s))) eqn:E'; auto.
      destruct (split_head_prefix m s) as [q Hq].
      apply (startswith_weaken _ _ q) in E'.
      change (String c (split_head m s) +:+ q)
        with (String c (split_head m s +:+ q)) in E'.
      rewrite <- Hq in E'. congruence.
Qed.

Lemma lstrip_suffix (s : string) : exists p, s = p +:+ lstrip s.
Proof.
  induction s as [|c s [p IH]]; [now exists ""|].
  simpl. destruct (is_space c).
  - exists (String c p). simpl. now rewrite <- IH.
  - now exists "".
Qed.

Lemma rstrip_prefix (s : string) : exists q, s = rstrip s +:+ q.
Proof.
  induction s as [|c s [q IH]]; [now exists ""|].
  simpl. destruct (is_empty (rstrip s) && is_space c).
  - now exists (String c s).
  - exists q. simpl. now rewrite <- IH.
Qed.

(** A stripped text holds no marker that the text does not hold. *)
Lemma strip_clean (m s : string) :
  contains m s = false -> contains m (strip s) = false.
Proof.
  intros H. unfold strip.
  destruct (contains m (rstrip (lstrip s))) eqn:E; [|reflexivity].
  destruct (rstrip_prefix (lstrip s)) as [q Hq].
  destruct (lstrip_suffix s) as [p Hp].
  apply (contains_app_l _ _ q) in E. rewrite <- Hq in E.
  apply (contains_app_r _ p) in E. rewrite <- Hp in E. congruence.
Qed.

Lemma cut_step_prefix (t m : string) : exists q, t = cut_step t m +:+ q.
Proof.
  unfold cut_step. destruct (contains m t).
  - apply split_head_prefix.
  - exists "". now rewrite app_empty_r.
Qed.

Lemma cut_step_clean (t m : string) :
  m <> "" -> contains m (cut_step t m) = false.
Proof.
  intros Hm. unfold cut_step. destruct (contains m t) eqn:E; [|exact E].
  now apply split_head_clean.
Qed.

Lemma cut_at_prefix (ms : list string) :
  forall t, exists q, t = cut_at ms t +:+ q.
Proof.
  unfold cut_at. induction ms as [|m ms IH]; intros t; simpl.
  - exists "". now rewrite app_empty_r.
  - destruct (IH (cut_step t m)) as [q Hq].
    destruct (cut_step_prefix t m) as [q' Hq'].
    exists (q +:+ q'). rewrite <- app_assoc_s, <- Hq. exact Hq'.
Qed.

Lemma prefix_clean (m t q : string) :
  contains m (t +:+ q) = false -> contains m t = false.
Proof.
  intros H. destruct (contains m t) eqn:E; [|reflexivity].
  apply (contains_app_l _ _ q) in E. congruence.
Qed.

(** After the cuts the text holds none of the markers. *)
Lemma cut_at_clean (ms : list string) :
  Forall (fun m => m <> "") ms ->
  forall t, Forall (fun m => contains m (cut_at ms t) = false) ms.
Proof.
  intros Hms. induction Hms as [|m ms Hm Hms IH]; intros t; [constructor|].
  constructor.
  - change (cut_at (m :: ms) t) with (cut_at ms (cut_step t m)).
    destruct (cut_at_prefix ms (cut_step t m)) as [q Hq].
    apply (prefix_clean _ _ q). rewrite <- Hq. now apply cut_step_clean.
  - apply (IH (cut_step t m)).
Qed.

End SubstringFacts.

(** ** Decomposing the noise elements *)

Section TreeFacts.

Lemma prune_noise_free (n : node) :
  noise_free n = true -> prune is_noise n = [n].
Proof.
  induction n as [s | nm attrs cs IH] using node_induction; [reflexivity|].
  simpl. intros H. apply andb_true_iff in H as [Hn Hcs].
  apply negb_true_iff in Hn. rewrite Hn. do 2 f_equal.
  induction IH as [|c cs Hc _ IHcs]; [reflexivity|].
  simpl in Hcs. apply andb_true_iff in Hcs as [H1 H2].
  simpl. rewrite (Hc H1). simpl. now rewrite (IHcs H2).
Qed.

Lemma decompose_noise_free (s : soup) :
  forallb noise_free s = true -> decompose_all is_noise s = s.
Proof.
  unfold decompose_all. induction s as [|n s IH]; [reflexivity|].
  simpl. intros H. apply andb_true_iff in H as [H1 H2].
  rewrite (prune_noise_free n H1). simpl. now rewrite (IH H2).
Qed.

Lemma prune_result_noise_free (n : node) :
  forallb noise_free (prune is_noise n) = true.
Proof.
  induction n as [s | nm attrs cs IH] using node_induction; [reflexivity|].
  simpl. destruct (is_noise nm) eqn:E; [reflexivity|].
  simpl. rewrite E. simpl. rewrite andb_true_r.
  induction IH as [|c cs Hc _ IHcs]; [reflexivity|].
  simpl. rewrite forallb_app. now rewrite Hc, IHcs.
Qed.

(** After the decomposition no script, style or nav element is left. *)
Lemma decompose_result_noise_free (s : soup) :
  forallb noise_free (decompose_all is_noise s) = true.
Proof.
  unfold decompose_all. induction s as [|n s IH]; [reflexivity|].
  simpl. rewrite forallb_app. now rewrite prune_result_noise_free, IH.
Qed.

(** The decomposition leaves the page as it is exactly when the page has
    no such element. *)
Lemma decompose_fixed_iff (s : soup) :
  decompose_all is_noise s = s <-> forallb noise_free s = true.
Proof.
  split.
  - intros H. rewrite <- H. apply decompose_result_noise_free.
  - apply decompose_noise_free.
Qed.

End TreeFacts.

(** ** Properties of the body text and the page *)

Section FallbackFacts.

Lemma fallback_text (s : soup) :
  fst (_fallback_transcript_text s)
  = strip (cut_at FALLBACK_MARKERS (region_text (decompose_all is_noise s))).
Proof. reflexivity. Qed.

(** The fallback text holds none of its three markers. *)
Lemma fallback_clean (s : soup) :
  Forall (fun m => contains m (fst (_fallback_transcript_text s)) = false)
         FALLBACK_MARKERS.
Proof.
  rewrite fallback_text.
  assert (H : Forall (fun m : string => m <> "") FALLBACK_MARKERS)
    by (repeat constructor; discriminate).
  pose proof (cut_at_clean FALLBACK_MARKERS H
                (region_text (decompose_all is_noise s))) as Hc.
  eapply List.Forall_impl; [|exact Hc].
  intros m Hm. now apply strip_clean.
Qed.

End FallbackFacts.

(** C5, as the code has it.  When the paragraph loop keeps nothing, the
    body is the flattened text of the main cell cut at its two markers,
    if there is a main cell and that text is not empty; only otherwise is
    it the text of the whole-page fallback.  The fallback decomposes the
    script, style and nav elements, takes the region chosen by id, else
    the main element, else the body, else the page, flattens it with line
    breaks, cuts it at its three markers and strips it; the result holds
    none of the three markers. *)
Theorem body_without_paragraphs (s : soup) :
  paragraph_parts s = [] ->
  transcript (fst (extract_transcript_metadata_and_text (Some s)))
  = match main_td s with
    | Some td =>
        if truthy (strip (cut_at CELL_MARKERS (get_text_sep NL td)))
        then strip (cut_at CELL_MARKERS (get_text_sep NL td))
        else fst (_fallback_transcript_text s)
    | None => fst (_fallback_transcript_text s)
    end
  /\ fst (_fallback_transcript_text s)
     = strip (cut_at FALLBACK_MARKERS
                     (region_text (decompose_all is_noise s)))
  /\ Forall (fun m => contains m (fst (_fallback_transcript_text s)) = false)
            FALLBACK_MARKERS.
Proof.
  intros Hp. split; [|split; [apply fallback_text | apply fallback_clean]].
  destruct (main_td s) as [td|] eqn:Htd.
  - unfold td_text.
    destruct (truthy (strip (cut_at CELL_MARKERS (get_text_sep NL td))))
      eqn:E.
    + rewrite (transcript_of_parts s
                 (strip (cut_at CELL_MARKERS (get_text_sep NL td))) []).
      * reflexivity.
      * unfold transcript_parts. rewrite Hp, Htd. unfold td_text.
        now rewrite E.
    + rewrite transcript_of_fallback; [reflexivity|].
      unfold transcript_parts. rewrite Hp, Htd. unfold td_text.
      now rewrite E.
  - rewrite transcript_of_fallback; [reflexivity|].
    unfold transcript_parts. now rewrite Hp, Htd.
Qed.

(** On the page with a cell that has text and no paragraph, the body is
    the text of the cell. *)
Lemma body_without_paragraphs_fixture :
  transcript (fst (extract_transcript_metadata_and_text
                     (Some Fixture.page_cell_text)))
  = "Title" +:+ NL +:+ "hello".
Proof.
  refine (eq_trans
            (proj1 (body_without_paragraphs Fixture.page_cell_text _)) _);
    reflexivity.
Defined.

(** C5 as stated fails: on this page the paragraph loop keeps nothing,
    the body is the text of the main cell, and the whole-page fallback
    would have given another text. *)
Lemma cell_text_is_not_the_fallback :
  paragraph_parts Fixture.page_cell_text = []
  /\ transcript (fst (extract_transcript_metadata_and_text
                        (Some Fixture.page_cell_text)))
     = "Title" +:+ NL +:+ "hello"
  /\ fst (_fallback_transcript_text Fixture.page_cell_text) = "other".
Proof. vm_compute. repeat split; reflexivity. Qed.

(** C9, as the code has it.  The page is left as it was when the body
    comes from the main cell, and when the page has no script, style or
    nav element.  When the fallback runs, the page is left without those
    elements, so a page that had one is changed. *)
Theorem extract_page_effect (s : soup) :
  (transcript_parts s <> [] ->
   snd (extract_transcript_metadata_and_text (Some s)) = Some s)
  /\ (forallb noise_free s = true ->
      snd (extract_transcript_metadata_and_text (Some s)) = Some s)
  /\ (transcript_parts s = [] ->
      snd (extract_transcript_metadata_and_text (Some s))
      = Some (decompose_all is_noise s)
      /\ forallb noise_free (decompose_all is_noise s) = true)
  /\ (transcript_parts s = [] -> forallb noise_free s = false ->
      snd (extract_transcript_metadata_and_text (Some s)) <> Some s).
Proof.
  assert (Hfb : transcript_parts s = [] ->
                snd (extract_transcript_metadata_and_text (Some s))
                = Some (decompose_all is_noise s)).
  { intros H. now rewrite transcript_of_fallback. }
  split; [|split; [|split]].
  - intros H. destruct (transcript_parts s) as [|p ps] eqn:E; [congruence|].
    now rewrite (transcript_of_parts s p ps E).
  - intros H. destruct (transcript_parts s) as [|p ps] eqn:E.
    + rewrite (Hfb eq_refl). now rewrite decompose_noise_free.
    + now rewrite (transcript_of_parts s p ps E).
  - intros H. split; [auto | apply decompose_result_noise_free].
  - intros H Hn Heq. rewrite (Hfb H) in Heq. injection Heq as Heq.
    apply decompose_fixed_iff in Heq. congruence.
Qed.

(** The page with four paragraphs is left as it was. *)
Lemma extract_page_effect_fixture :
  snd (extract_transcript_metadata_and_text
         (Some Fixture.page_four_paragraphs))
  = Some Fixture.page_four_paragraphs.
Proof.
  refine (proj1 (extract_page_effect Fixture.page_four_paragraphs) _).
  vm_compute. discriminate.
Defined.

(** C9 as stated fails: extraction from a page with a nav bar and no
    main cell returns with the nav bar gone from the page. *)
Lemma extract_removes_nav :
  snd (extract_transcript_metadata_and_text (Some Fixture.page_nav))
  = Some [Fixture.el "html"
            [Fixture.el "body" [Fixture.el "div" [Text "hello"]]]]
  /\ transcript (fst (extract_transcript_metadata_and_text
                        (Some Fixture.page_nav))) = "hello"
  /\ snd (extract_transcript_metadata_and_text (Some Fixture.page_nav))
     <> Some Fixture.page_nav.
Proof.
  split; [reflexivity | split; [reflexivity | vm_compute; discriminate]].
Qed.

(** ** The store *)

Section StoreFacts.








(** The names of a row dict are names of the header. *)
Lemma zip_row_lookup (names : list string) :
  forall fields d k x,
    zip_row names fields d !! k = Some x -> k ∈ names \/ d !! k = Some x.
Proof.
  induction names as [|n names IH]; intros fields d k x H; simpl in H.
  - destruct fields; now right.
  - destruct fields as [|f fields];
      apply IH in H as [H|H]; try (left; now right);
      (destruct (decide (n = k)) as [->|Hne];
       [left; now left | rewrite lookup_insert_ne in H by exact Hne; now right]).
Qed.

Lemma row_id_header (names fields : list string) (v : string) :
  dict_row names fields !! "interview_id" = Some (Some v) ->
  "interview_id" ∈ names.
Proof.
  intros H. apply zip_row_lookup in H as [H|H]; [exact H|].
  rewrite lookup_empty in H. discriminate.
Qed.

Lemma scan_rows_mono (names : list string) (ls : list line) :
  forall ids x, x ∈ ids -> x ∈ fst (scan_rows names ls ids).
Proof.
  induction ls as [|[fs|e] ls IH]; intros ids x H; simpl; [exact H| |exact H].
  destruct fs as [|f fs]; [now apply IH|].
  destruct (row_id (dict_row names (f :: fs))); apply IH; set_solver.
Qed.

(** The identifier of every row read is in the set, stripped. *)
Lemma scan_rows_member (names : list string) (ls : list line)
      (row : gmap string (option string)) (v : string) :
  In row (rows_of names ls) ->
  row !! "interview_id" = Some (Some v) -> truthy v = true ->
  forall ids, strip v ∈ fst (scan_rows names ls ids).
Proof.
  induction ls as [|[fs|e] ls IH]; simpl; intros Hin Hrow Hv ids;
    [contradiction| |contradiction].
  destruct fs as [|f fs]; [now apply IH|].
  destruct Hin as [<-|Hin].
  - unfold row_id. rewrite Hrow, Hv.
    apply scan_rows_mono. set_solver.
  - destruct (row_id (dict_row names (f :: fs))); now apply IH.
Qed.

Lemma rows_of_header (names : list string) (ls : list line)
      (row : gmap string (option string)) (v : string) :
  In row (rows_of names ls) ->
  row !! "interview_id" = Some (Some v) -> "interview_id" ∈ names.
Proof.
  induction ls as [|[fs|e] ls IH]; simpl; intros Hin Hrow;
    [contradiction| |contradiction].
  destruct fs as [|f fs]; [now apply IH|].
  destruct Hin as [<-|Hin]; [|now apply IH].
  eapply row_id_header; eauto.
Qed.

Lemma load_member (f : file) (row : gmap string (option string))
      (v : string) (ids : gset string) :
  In row (rows_read f) ->
  row !! "interview_id" = Some (Some v) -> truthy v = true ->
  load_scraped_ids f = inr ids -> strip v ∈ ids.
Proof.
  intros Hin Hrow Hv Hload.
  destruct f as [|[|[names|e] rest]]; simpl in Hin; try contradiction.
  assert (Hs : strip v ∈ fst (scan (Rec names :: rest))).
  { unfold scan. simpl.
    pose proof (rows_of_header _ _ _ _ Hin Hrow) as Hn.
    rewrite (bool_decide_eq_true_2 _ Hn).
    assert (Hne : names <> []) by (intros ->; inversion Hn).
    rewrite (bool_decide_eq_false_2 _ Hne). simpl.
    eapply scan_rows_member; eauto. }
  unfold load_scraped_ids in Hload.
  destruct (scan (Rec names :: rest)) as [ids' [e|]]; simpl in Hs.
  - destruct (caught e); congruence.
  - congruence.
Qed.

End StoreFacts.




(** ** The crawl *)

Section CrawlFacts.

Variable urljoin : string -> string -> string.
Variable query_ids : string -> list string.
Variable net : nat -> string -> option soup.

Lemma get_soup_skips (x : string) (st : crawl) (r : role) (u : string) :
  r <> InterviewPage -> skips query_ids x st -> skips query_ids x (snd (get_soup net st r u)).
Proof.
  intros Hr [Hk Hreq]. split; [exact Hk|]. simpl.
  apply Forall_app. split; [exact Hreq|].
  constructor; [|constructor]. intros Hrole. simpl in Hrole. congruence.
Qed.

(** A failed fetch of an interview page changes the log only. *)
Lemma scrape_failed (st : crawl) (u iid name title date_ : string) :
  net (length (requests st)) u = None ->
  scrape_interview net st u iid name title date_
  = (None, mk_crawl (csv_file st) (scraped_ids st) (total_new st)
                    (requests st ++ [mk_request InterviewPage u false])%list).
Proof. intros H. unfold scrape_interview, get_soup. now rewrite H. Qed.

Lemma scrape_state (st : crawl) (u iid name title date_ : string) :
  snd (scrape_interview net st u iid name title date_)
  = snd (get_soup net st InterviewPage u).
Proof.
  unfold scrape_interview.
  destruct (get_soup net st InterviewPage u) as [[pg|] st1]; reflexivity.
Qed.

(** A link whose identifier is known leaves the state as it is. *)
Lemma handle_interview_known (x name : string) (st : crawl)
      (u title date_ : string) :
  parse_interview_id query_ids u = Some x -> x ∈ scraped_ids st ->
  handle_interview query_ids net name st (u, title, date_) = st.
Proof.
  intros Hp Hx. unfold handle_interview. rewrite Hp.
  destruct (negb (truthy x)); [reflexivity|].
  now rewrite (bool_decide_eq_true_2 _ Hx).
Qed.

Lemma handle_interview_skips (x name : string) (st : crawl)
      (link : string * string * string) :
  skips query_ids x st -> skips query_ids x (handle_interview query_ids net name st link).
Proof.
  intros [Hk Hreq]. destruct link as [[u title] date_].
  unfold handle_interview.
  destruct (parse_interview_id query_ids u) as [iid|] eqn:Hp;
    [|now split].
  destruct (negb (truthy iid)) eqn:Ht; [now split|].
  destruct (bool_decide (iid ∈ scraped_ids st)) eqn:Hin; [now split|].
  apply negb_false_iff in Ht. apply bool_decide_eq_false in Hin.
  assert (Hne : Some iid <> Some x).
  { intros [= ->]. destruct Hk as [Hk|Hk]; [congruence | contradiction]. }
  pose proof (scrape_state st u iid name title date_) as Hst.
  destruct (scrape_interview net st u iid name title date_) as [row st1].
  simpl in Hst. subst st1.
  assert (Hlog : Forall (avoids query_ids x)
                   (requests (snd (get_soup net st InterviewPage u)))).
  { simpl. apply Forall_app. split; [exact Hreq|].
    constructor; [|constructor]. intros _. simpl. now rewrite Hp. }
  destruct row as [r|]; split; simpl; try exact Hlog.
  - destruct Hk as [Hk|Hk]; [now left | right; set_solver].
  - exact Hk.
Qed.

Lemma handle_interviews_skips (x name : string)
      (links : list (string * string * string)) :
  forall st, skips query_ids x st ->
             skips query_ids x (handle_interviews query_ids net name st links).
Proof.
  unfold handle_interviews.
  induction links as [|l links IH]; simpl; intros st H; [exact H|].
  apply IH. now apply handle_interview_skips.
Qed.

Lemma handle_player_skips (x : string) (st : crawl) (p : string * string) :
  skips query_ids x st -> skips query_ids x (handle_player urljoin query_ids net st p).
Proof.
  intros H. destruct p as [u n]. unfold handle_player.
  pose proof (get_soup_skips x st PlayerPage u ltac:(discriminate) H) as H1.
  destruct (get_soup net st PlayerPage u) as [psoup st1]. simpl in H1.
  now apply handle_interviews_skips.
Qed.

Lemma handle_letter_skips (x : string) (st : crawl) (u : string) :
  skips query_ids x st -> skips query_ids x (handle_letter urljoin query_ids net st u).
Proof.
  intros H. unfold handle_letter.
  pose proof (get_soup_skips x st LetterPage u ltac:(discriminate) H) as H1.
  destruct (get_soup net st LetterPage u) as [lsoup st1]. simpl in H1.
  revert st1 H1.
  induction (get_player_links urljoin lsoup) as [|p ps IH]; simpl;
    intros st1 H1; [exact H1|].
  apply IH. now apply handle_player_skips.
Qed.

Lemma letters_skip (x : string) (urls : list string) :
  forall st, skips query_ids x st ->
             skips query_ids x (fold_left (handle_letter urljoin query_ids net)
                                urls st).
Proof.
  induction urls as [|u urls IH]; simpl; intros st H; [exact H|].
  apply IH. now apply handle_letter_skips.
Qed.

Lemma strip_truthy (v : string) : truthy (strip v) = true -> truthy v = true.
Proof. destruct v; [vm_compute; congruence | reflexivity]. Qed.

(** What the run knows of a row the reader yields is the stripped value
    of its [interview_id] (source line 50): that value is in the set
    loaded, and no request for an interview page made by the run is for a
    URL that resolves to it. *)
Lemma resume_skips_loaded (f : file) (row : gmap string (option string))
      (v : string) (max_letters : option Z) :
  In row (rows_read f) ->
  row !! "interview_id" = Some (Some v) ->
  (forall ids, load_scraped_ids f = inr ids -> truthy v = true ->
               strip v ∈ ids)
  /\ Forall (avoids query_ids (strip v))
            (requests_of (run urljoin query_ids net f true max_letters)).
Proof.
  intros Hin Hrow. split.
  - intros ids Hload Hv. eapply load_member; eauto.
  - unfold run.
    destruct (load_scraped_ids f) as [e|ids] eqn:Hload; [constructor|].
    simpl.
    apply (letters_skip (strip v)). split; [|constructor]. simpl.
    destruct (truthy (strip v)) eqn:Ht; [right | now left].
    eapply load_member; eauto. now apply strip_truthy.
Qed.

(** C1, as the code has it.  With resume on, when the reader of the
    store yields (before any line at which it raises) a row whose
    [interview_id] is [v], and [v] has no blank at either end, then [v]
    is in the set loaded, a link that resolves to [v] leaves the crawl as
    it is (no fetch, no row, no count), and no request for an interview
    page made by the run is for a URL that resolves to [v]. *)
Theorem resume_never_refetches
        (f : file) (row : gmap string (option string)) (v : string)
        (max_letters : option Z) :
  In row (rows_read f) ->
  row !! "interview_id" = Some (Some v) ->
  strip v = v ->
  (forall ids, load_scraped_ids f = inr ids -> truthy v = true -> v ∈ ids)
  /\ (forall st name u title date_,
        v ∈ scraped_ids st ->
        parse_interview_id query_ids u = Some v ->
        handle_interview query_ids net name st (u, title, date_) = st)
  /\ Forall (fun r => req_role r = InterviewPage ->
                      parse_interview_id query_ids (req_url r) <> Some v)
            (requests_of (run urljoin query_ids net f true max_letters)).
Proof.
  intros Hin Hrow Hs.
  destruct (resume_skips_loaded f row v max_letters Hin Hrow) as [H1 H2].
  rewrite Hs in H1, H2. split; [exact H1|]. split; [|exact H2].
  intros st name u title date_ Hx Hp.
  now apply (handle_interview_known v).
Qed.

(** C6.  When the fetch of an interview page fails, the store, the set
    of known identifiers and the count are as before, the log has one
    more (failed) request, the loop goes on with the next link from that
    state, the identifier is still unknown, and the store loads as it
    did before. *)
Theorem fetch_failure_changes_nothing
        (name : string) (st : crawl) (u title date_ iid : string)
        (rest : list (string * string * string)) :
  parse_interview_id query_ids u = Some iid -> truthy iid = true ->
  iid ∉ scraped_ids st ->
  net (length (requests st)) u = None ->
  csv_file (handle_interview query_ids net name st (u, title, date_))
  = csv_file st
  /\ scraped_ids (handle_interview query_ids net name st (u, title, date_))
     = scraped_ids st
  /\ total_new (handle_interview query_ids net name st (u, title, date_))
     = total_new st
  /\ requests (handle_interview query_ids net name st (u, title, date_))
     = (requests st ++ [mk_request InterviewPage u false])%list
  /\ handle_interviews query_ids net name st ((u, title, date_) :: rest)
     = handle_interviews query_ids net name
         (handle_interview query_ids net name st (u, title, date_)) rest
  /\ (iid ∉ scraped_ids
             (handle_interview query_ids net name st (u, title, date_)))
  /\ load_scraped_ids
       (csv_file (handle_interview query_ids net name st (u, title, date_)))
     = load_scraped_ids (csv_file st).
Proof.
  intros Hp Ht Hn Hnet.
  assert (E : handle_interview query_ids net name st (u, title, date_)
              = mk_crawl (csv_file st) (scraped_ids st) (total_new st)
                  (requests st ++ [mk_request InterviewPage u false])%list).
  { unfold handle_interview. rewrite Hp, Ht. simpl.
    rewrite (bool_decide_eq_false_2 _ Hn).
    now rewrite (scrape_failed st u iid name title date_ Hnet). }
  split; [now rewrite E|]. split; [now rewrite E|].
  split; [now rewrite E|]. split; [now rewrite E|].
  split; [reflexivity|]. split; now rewrite E.
Qed.

End CrawlFacts.

(** On the site of the examples, with the row of interview 7 in the
    store, a run over the first letter makes no request for interview
    7. *)
Lemma resume_never_refetches_fixture :
  Forall (fun r => req_role r = InterviewPage ->
                   parse_interview_id Fixture.query_ids (req_url r)
                   <> Some "7")
         (requests_of (run Fixture.urljoin Fixture.query_ids Fixture.site
                           Fixture.store_with_7 true (Some 1%Z))).
Proof.
  refine (proj2 (proj2 (resume_never_refetches
                          Fixture.urljoin Fixture.query_ids Fixture.site
                          Fixture.store_with_7
                          (dict_row CSV_COLUMNS Fixture.row_7) "7"
                          (Some 1%Z) _ _ _))).
  - left. reflexivity.
  - vm_compute. reflexivity.
  - reflexivity.
Defined.

(** C1 as stated fails.  First, a row that comes after a line at which
    the reader raises [csv.Error] is in the store and is never read: the
    set loaded is empty, and the run fetches interview 7 again.  Second,
    the store a run left on a site whose link has a blank after the
    identifier holds the identifier with its blank, the set loaded holds
    it without, and the run fetches that interview again and writes a
    second row. *)
Lemma known_row_is_refetched :
  (In (Rec Fixture.row_7) (store_lines Fixture.store_7_after_fault)
   /\ dict_row CSV_COLUMNS Fixture.row_7 !! "interview_id" = Some (Some "7")
   /\ load_scraped_ids Fixture.store_7_after_fault = inr ∅
   /\ parse_interview_id Fixture.query_ids
        "https://www.asapsports.com/show_interview.php?id=7" = Some "7"
   /\ In (mk_request InterviewPage
            "https://www.asapsports.com/show_interview.php?id=7" true)
         (requests_of (run Fixture.urljoin Fixture.query_ids Fixture.site
                           Fixture.store_7_after_fault true (Some 1%Z))))
  /\ (csv_file (state_of (run Fixture.urljoin Fixture.query_ids_unquoted
                              Fixture.site_blank Missing true (Some 1%Z)))
      = Fixture.store_after_blank_run
      /\ (exists row,
             In row (rows_read Fixture.store_after_blank_run)
             /\ row !! "interview_id" = Some (Some "7 "))
      /\ load_scraped_ids Fixture.store_after_blank_run = inr {["7"]}
      /\ parse_interview_id Fixture.query_ids_unquoted
           "https://www.asapsports.com/show_interview.php?id=7%20"
         = Some "7 "
      /\ In (mk_request InterviewPage
               "https://www.asapsports.com/show_interview.php?id=7%20" true)
            (requests_of (run Fixture.urljoin Fixture.query_ids_unquoted
                              Fixture.site_blank
                              Fixture.store_after_blank_run true
                              (Some 1%Z)))
      /\ total_new (state_of (run Fixture.urljoin Fixture.query_ids_unquoted
                                  Fixture.site_blank
                                  Fixture.store_after_blank_run true
                                  (Some 1%Z))) = 1).
Proof.
  split.
  - split; [right; right; left; reflexivity|].
    split; [vm_compute; reflexivity|].
    split; [vm_compute; reflexivity|].
    split; [reflexivity|].
    vm_compute. right. right. left. reflexivity.
  - split; [vm_compute; reflexivity|].
    split.
    { eexists. split; [left; reflexivity | vm_compute; reflexivity]. }
    split; [vm_compute; reflexivity|].
    split; [reflexivity|].
    split; [|vm_compute; reflexivity].
    vm_compute. right. right. left. reflexivity.
Qed.

(** The requests of that run: the letter page, the player page, and
    interview 8, whose fetch fails. *)
Example resume_run_requests :
  requests_of (run Fixture.urljoin Fixture.query_ids Fixture.site
                   Fixture.store_with_7 true (Some 1%Z))
  = [mk_request LetterPage
       "https://www.asapsports.com/show_player.php?category=2&letter=a" true;
     mk_request PlayerPage
       "https://www.asapsports.com/show_player.php?id=5" true;
     mk_request InterviewPage
       "https://www.asapsports.com/show_interview.php?id=8" false].
Proof. vm_compute. reflexivity. Qed.

(** Without resume the same run fetches interview 7 as well. *)
Example full_run_requests :
  map req_url
      (requests_of (run Fixture.urljoin Fixture.query_ids Fixture.site
                        Fixture.store_with_7 false (Some 1%Z)))
  = ["https://www.asapsports.com/show_player.php?category=2&letter=a";
     "https://www.asapsports.com/show_player.php?id=5";
     "https://www.asapsports.com/show_interview.php?id=7";
     "https://www.asapsports.com/show_interview.php?id=8"].
Proof. vm_compute. reflexivity. Qed.

(** On the site of the examples the fetch of interview 8 fails and
    leaves the store with the row of interview 7 as it is. *)
Lemma fetch_failure_changes_nothing_fixture :
  csv_file (handle_interview Fixture.query_ids Fixture.site "Jane Doe"
              (mk_crawl Fixture.store_with_7 {["7"]} 0 [])
              ("https://www.asapsports.com/show_interview.php?id=8",
               "Game 2", ""))
  = Fixture.store_with_7.
Proof.
  refine (proj1 (fetch_failure_changes_nothing
                   Fixture.query_ids Fixture.site "Jane Doe"
                   (mk_crawl Fixture.store_with_7 {["7"]} 0 [])
                   "https://www.asapsports.com/show_interview.php?id=8"
                   "Game 2" "" "8" [] _ _ _ _)).
  - reflexivity.
  - reflexivity.
  - simpl. set_solver.
  - reflexivity.
Defined.

(** ** Links *)

Section LinkFacts.

Variable urljoin : string -> string -> string.

Lemma player_fold (l : list node) :
  forall seen out,
    snd (fold_left (player_step urljoin) l (seen, out))
    = (out ++ first_by_url seen (omap (player_candidate urljoin) l))%list.
Proof.
  induction l as [|a l IH]; intros seen out; simpl.
  - now rewrite app_nil_r.
  - unfold player_candidate.
    destruct (contains "show_player.php?id=" (href a)
              && negb (contains "letter=" (href a))) eqn:E1; simpl.
    + destruct (truthy (strip (get_text a))) eqn:E2; simpl.
      * destruct (bool_decide (urljoin BASE_URL (href a) ∈ seen)) eqn:E3;
          simpl.
        -- apply IH.
        -- rewrite IH. now rewrite <- app_assoc.
      * apply IH.
    + apply IH.
Qed.

Lemma first_by_url_fresh (l : list (string * string)) :
  forall seen u, u ∈ seen -> u ∉ map fst (first_by_url seen l).
Proof.
  induction l as [|[u' n] l IH]; intros seen u Hu; simpl.
  - apply not_elem_of_nil.
  - destruct (bool_decide (u' ∈ seen)) eqn:E.
    + now apply IH.
    + apply bool_decide_eq_false in E. simpl.
      apply not_elem_of_cons. split; [intros ->; contradiction|].
      apply IH. set_solver.
Qed.

Lemma first_by_url_NoDup (l : list (string * string)) :
  forall seen, NoDup (map fst (first_by_url seen l)).
Proof.
  induction l as [|[u n] l IH]; intros seen; simpl.
  - constructor.
  - destruct (bool_decide (u ∈ seen)); [apply IH|].
    simpl. constructor; [|apply IH].
    apply first_by_url_fresh. set_solver.
Qed.

(** The links of a letter page are the candidate links in document
    order with the first link of each URL kept, so no URL comes twice. *)
Lemma player_links_deduplicated (s : soup) :
  get_player_links urljoin (Some s)
  = first_by_url ∅ (omap (player_candidate urljoin) (anchors s))
  /\ NoDup (map fst (get_player_links urljoin (Some s))).
Proof.
  assert (E : get_player_links urljoin (Some s)
              = first_by_url ∅ (omap (player_candidate urljoin) (anchors s))).
  { unfold get_player_links. now rewrite player_fold. }
  split; [exact E|]. rewrite E. apply first_by_url_NoDup.
Qed.

(** C2 on the code: a player page that lists one interview twice gives
    two links with the same URL, while a letter page that lists one
    player twice gives one link, with the first label. *)
Theorem interview_links_keep_duplicates :
  get_interview_links urljoin (Some Fixture.page_two_anchors)
  = [(urljoin BASE_URL "show_interview.php?id=7", "Game 1", "");
     (urljoin BASE_URL "show_interview.php?id=7", "Recap", "")]
  /\ get_player_links urljoin (Some Fixture.page_two_players)
     = [(urljoin BASE_URL "show_player.php?id=5", "Jane Doe")].
Proof.
  split; [reflexivity|].
  rewrite (proj1 (player_links_deduplicated _)).
  assert (E : omap (player_candidate urljoin) (anchors Fixture.page_two_players)
              = [(urljoin BASE_URL "show_player.php?id=5", "Jane Doe");
                 (urljoin BASE_URL "show_player.php?id=5", "J. Doe")])
    by reflexivity.
  rewrite E. cbn [first_by_url].
  rewrite bool_decide_eq_false_2 by set_solver.
  rewrite bool_decide_eq_true_2 by set_solver. reflexivity.
Qed.

End LinkFacts.

(** ** Extraction does not raise *)

Section RaisingFacts.

Lemma head_filter_fst (p : node -> bool) (l : list (node * list node)) :
  head (List.filter p (map fst l))
  = fst <$> head (List.filter (fun x => p (fst x)) l).
Proof.
  induction l as [|[n anc] l IH]; simpl; [reflexivity|].
  destruct (p n); [reflexivity | exact IH].
Qed.

(** The two ways the code finds the first h1 agree. *)
Lemma soup_find_ctx_fst (nm : string) (s : soup) :
  soup_find nm s = fst <$> soup_find_ctx nm s.
Proof.
  unfold soup_find, soup_find_all, soup_descendants, soup_find_ctx.
  apply head_filter_fst.
Qed.

Lemma raising_cut_at (ms : list string) :
  Forall (fun m => m <> "") ms ->
  forall t, Raising.cut_at ms t = inr (cut_at ms t).
Proof.
  unfold Raising.cut_at, cut_at.
  intros H. induction H as [|m ms Hm Hms IH]; intros t; [reflexivity|].
  simpl. unfold cut_step at 2. unfold Raising.split0.
  destruct m as [|c m]; [congruence|]. simpl.
  destruct (contains (String c m) t); apply IH.
Qed.

Lemma raising_fallback (s : soup) :
  Raising._fallback_transcript_text (Some s)
  = inr (_fallback_transcript_text s).
Proof.
  unfold Raising._fallback_transcript_text, _fallback_transcript_text.
  simpl. rewrite raising_cut_at; [reflexivity|].
  repeat constructor; discriminate.
Qed.

Lemma raising_extract (s : option soup) :
  Raising.extract_transcript_metadata_and_text s
  = inr (extract_transcript_metadata_and_text s).
Proof.
  destruct s as [s|]; [|reflexivity].
  unfold Raising.extract_transcript_metadata_and_text,
    extract_transcript_metadata_and_text.
  cbn [Raising.given negb Raising.call mbind mret Raising.py_bind
       Raising.py_ret].
  unfold transcript_parts, paragraph_parts, main_td, read_h3, read_h2,
    read_h1.
  rewrite (soup_find_ctx_fst "h1" s).
  destruct (soup_find_ctx "h1" s) as [[h1 anc]|];
    destruct (soup_find "h2" s) as [h2|];
    cbn [fmap option_fmap option_map Raising.given Raising.call mbind mret
         Raising.py_bind Raising.py_ret snd fst];
    try destruct (find_parent "td" anc) as [td|];
    cbn [Raising.given Raising.call mbind mret Raising.py_bind
         Raising.py_ret Raising.no_parts andb];
    try (destruct (collect_paragraphs (paragraph_texts td)) as [|p ps];
         cbn [Raising.given Raising.call mbind mret Raising.py_bind
              Raising.py_ret Raising.no_parts andb]);
    try (unfold td_text;
         rewrite raising_cut_at by (repeat constructor; discriminate);
         cbn [mbind mret Raising.py_bind Raising.py_ret];
         destruct (truthy (strip (cut_at CELL_MARKERS (get_text_sep NL td))));
         cbn [Raising.no_parts mbind mret Raising.py_bind Raising.py_ret]);
    try rewrite raising_fallback;
    cbn [mbind mret Raising.py_bind Raising.py_ret];
    try (destruct (_fallback_transcript_text s)); reflexivity.
Qed.

End RaisingFacts.

(** C7.  Extraction raises nothing and returns a dict for every
    argument: with every call that Python could refuse written out, the
    function ends with the result of the embedding above.  For [None]
    every value of the dict is the empty text. *)
Theorem extract_total_empty_on_none :
  (forall s : option soup,
      Raising.extract_transcript_metadata_and_text s
      = inr (extract_transcript_metadata_and_text s))
  /\ fst (extract_transcript_metadata_and_text None)
     = mk_data "" "" "" "" "" "" "" "".
Proof. split; [exact raising_extract | reflexivity]. Qed.

(** ** Runs of the model on the pages of the examples *)

Example is_date_month : is_date "October 4, 2023" = true.
Proof. vm_compute. reflexivity. Qed.

Example is_date_no_comma : is_date "May 12 2021" = true.
Proof. vm_compute. reflexivity. Qed.

Example is_date_rejects_name : is_date "Jane Doe" = false.
Proof. vm_compute. reflexivity. Qed.

Example is_date_rejects_three_digit_day : is_date "May 123, 2021" = false.
Proof. vm_compute. reflexivity. Qed.

Example strip_both_ends : strip "  a b  " = "a b".
Proof. vm_compute. reflexivity. Qed.

Example split_head_first_marker : split_head "XY" "abXYcdXY" = "ab".
Proof. vm_compute. reflexivity. Qed.

Example unbracket_date : unbracket "[October 4, 2023]" = "October 4, 2023".
Proof. vm_compute. reflexivity. Qed.

(** Four headings in the order the site has them fill the four fields. *)
Example field_priority :
  classify_all empty_data
    ["October 4, 2023"; "Jane Doe"; "Fenway Park"; "Press Conference"]
  = mk_data "Jane Doe" "" "October 4, 2023" "" "Fenway Park" ""
            "Press Conference" "".
Proof. vm_compute. reflexivity. Qed.

(** The links of the player page of the examples, with the date of the
    row. *)
Example interview_links_of_player_page :
  get_interview_links Fixture.urljoin (Some Fixture.page_player)
  = [("https://www.asapsports.com/show_interview.php?id=7", "Game 1",
      "October 4, 2023");
     ("https://www.asapsports.com/show_interview.php?id=8", "Game 2", "")].
Proof. vm_compute. reflexivity. Qed.

(** A first run over one letter writes the header and the row of
    interview 7; a second run with resume on the store it left writes
    nothing. *)
Example first_run_writes_one_row :
  match run Fixture.urljoin Fixture.query_ids Fixture.site
            Missing true (Some 1%Z) with
  | inr st => (csv_file st, total_new st)
  | inl _ => (Missing, 0)
  end
  = (Fixture.store_after_first_run, 1).
Proof. vm_compute. reflexivity. Qed.

Example second_run_writes_nothing :
  match run Fixture.urljoin Fixture.query_ids Fixture.site
            Fixture.store_after_first_run true (Some 1%Z) with
  | inr st => (csv_file st, total_new st)
  | inl _ => (Missing, 1)
  end
  = (Fixture.store_after_first_run, 0).
Proof. vm_compute. reflexivity. Qed.

(** * Further properties of the code *)

(** ** Links of a letter page and of a player page *)

Section MoreLinkFacts.

Variable urljoin : string -> string -> string.

Lemma first_by_url_sub (l : list (string * string)) :
  forall seen c, In c (first_by_url seen l) -> In c l /\ fst c ∉ seen.
Proof.
  induction l as [|[u n] l IH]; intros seen c H; simpl in H; [contradiction|].
  destruct (bool_decide (u ∈ seen)) eqn:E.
  - destruct (IH _ _ H) as [H1 H2]. split; [now right | exact H2].
  - apply bool_decide_eq_false in E. destruct H as [<-|H].
    + split; [now left | exact E].
    + destruct (IH _ _ H) as [H1 H2]. split; [now right|].
      intros Hin. apply H2. apply elem_of_union. now right.
Qed.

(** The first link of every URL that is not in [seen] is kept. *)
Lemma first_by_url_keeps_first (pre post : list (string * string))
      (c : string * string) :
  forall seen,
    fst c ∉ seen -> fst c ∉ map fst pre ->
    In c (first_by_url seen (pre ++ c :: post)).
Proof.
  induction pre as [|[u n] pre IH]; intros seen Hs Hp; simpl.
  - destruct c as [u n]. simpl in Hs.
    rewrite (bool_decide_eq_false_2 _ Hs). now left.
  - simpl in Hp. apply not_elem_of_cons in Hp as [Hne Hp].
    destruct (bool_decide (u ∈ seen)).
    + now apply IH.
    + right. apply IH; [|exact Hp].
      intros [Hin|Hin]%elem_of_union; [|contradiction].
      apply elem_of_singleton in Hin. simpl in Hne. congruence.
Qed.

Lemma player_candidate_name (a : node) (l : string * string) :
  player_candidate urljoin a = Some l ->
  truthy (snd l) = true
  /\ contains "show_player.php?id=" (href a) = true
  /\ contains "letter=" (href a) = false
  /\ l = (urljoin BASE_URL (href a), strip (get_text a)).
Proof.
  unfold player_candidate.
  destruct (contains "show_player.php?id=" (href a)) eqn:E1;
    destruct (contains "letter=" (href a)) eqn:E2;
    destruct (truthy (strip (get_text a))) eqn:E3; simpl;
    intros H; try discriminate.
  injection H as <-. auto.
Qed.

(** What is kept is a subsequence of what is given. *)
Lemma first_by_url_sublist (l : list (string * string)) :
  forall seen, sublist (first_by_url seen l) l.
Proof.
  induction l as [|[u n] l IH]; intros seen; simpl.
  - apply sublist_nil.
  - destruct (bool_decide (u ∈ seen)).
    + apply sublist_cons, IH.
    + apply sublist_skip, IH.
Qed.

Lemma seen_absorb (u : string) (A B seen : gset string) :
  u ∈ seen -> A ∪ (B ∪ seen) = A ∪ (({[u]} ∪ B) ∪ seen).
Proof.
  intros Hu. apply set_eq. intros x.
  rewrite !elem_of_union, elem_of_singleton.
  split; [tauto|]. intros [H|[[->|H]|H]]; auto.
Qed.

Lemma seen_shift (u : string) (A B seen : gset string) :
  A ∪ (B ∪ ({[u]} ∪ seen)) = A ∪ (({[u]} ∪ B) ∪ seen).
Proof.
  apply set_eq. intros x. rewrite !elem_of_union. tauto.
Qed.

(** A link that is kept is the first of its URL in what is given, and
    what is kept after it is what the rest gives once the URLs up to it
    are seen. *)
Lemma first_by_url_split (l : list (string * string)) :
  forall seen l1 c l2,
    first_by_url seen l = (l1 ++ c :: l2)%list ->
    exists p q,
      l = (p ++ c :: q)%list
      /\ (fst c ∉ seen) /\ (fst c ∉ map fst p)
      /\ l2 = first_by_url ({[fst c]} ∪ (list_to_set (map fst p) ∪ seen)) q.
Proof.
  induction l as [|[u n] l IH]; intros seen l1 c l2 H; simpl in H.
  - destruct l1; discriminate.
  - destruct (bool_decide (u ∈ seen)) eqn:E.
    + apply bool_decide_eq_true in E.
      destruct (IH _ _ _ _ H) as (p & q & -> & Hs & Hp & ->).
      exists ((u, n) :: p), q. split; [reflexivity|]. split; [exact Hs|].
      split.
      * simpl. apply not_elem_of_cons. split; [|exact Hp].
        intros Heq. apply Hs. now rewrite Heq.
      * f_equal. simpl. now apply seen_absorb.
    + apply bool_decide_eq_false in E.
      destruct l1 as [|x l1]; simpl in H; injection H as Hx Hrest.
      * subst c. exists [], l. simpl. split; [reflexivity|].
        split; [exact E|]. split; [apply not_elem_of_nil|].
        rewrite <- Hrest. f_equal. now rewrite union_empty_l_L.
      * subst x.
        destruct (IH _ _ _ _ Hrest) as (p & q & -> & Hs & Hp & ->).
        exists ((u, n) :: p), q. split; [reflexivity|].
        apply not_elem_of_union in Hs as [Hu Hs]. split; [exact Hs|].
        split.
        -- simpl. apply not_elem_of_cons. split; [|exact Hp].
           intros Heq. apply Hu. now apply elem_of_singleton.
        -- f_equal. simpl. apply seen_shift.
Qed.

(** Of two links that are kept, the one that comes first is the one
    whose URL occurs first in what is given. *)
Lemma first_by_url_order (l l1 l2 l3 : list (string * string))
      (c1 c2 : string * string) :
  first_by_url ∅ l = (l1 ++ c1 :: l2 ++ c2 :: l3)%list ->
  exists p q r,
    l = (p ++ c1 :: q ++ c2 :: r)%list
    /\ (fst c1 ∉ map fst p)
    /\ (fst c2 ∉ map fst (p ++ c1 :: q)).
Proof.
  intros H.
  destruct (first_by_url_split l ∅ l1 c1 (l2 ++ c2 :: l3) H)
    as (p & q0 & -> & _ & Hp & H2).
  symmetry in H2.
  destruct (first_by_url_split q0 _ l2 c2 l3 H2)
    as (q & r & -> & Hs & Hq & _).
  exists p, q, r. split; [reflexivity|]. split; [exact Hp|].
  apply not_elem_of_union in Hs as [H1 Hs].
  apply not_elem_of_union in Hs as [Hs _].
  rewrite map_app. apply not_elem_of_app. split.
  - intros Hin. apply Hs. now apply elem_of_list_to_set.
  - simpl. apply not_elem_of_cons. split; [|exact Hq].
    intros Heq. apply H1. now apply elem_of_singleton.
Qed.

(** The links of a letter page: one per URL, each with the label of the
    first anchor of that URL that passes the tests, in document order;
    no label is empty, no link comes from an anchor with a letter
    selector, and every URL of a passing anchor has its link.  Document
    order: the links are a subsequence of the links of the passing
    anchors as the page has them, each link is the first of its URL
    there, and of two links the one that comes first is the one whose
    URL occurs first there. *)
Theorem player_links_first_per_url (s : soup) :
  NoDup (map fst (get_player_links urljoin (Some s)))
  /\ Forall (fun l =>
               truthy (snd l) = true
               /\ exists a,
                    In a (anchors s)
                    /\ contains "show_player.php?id=" (href a) = true
                    /\ contains "letter=" (href a) = false
                    /\ l = (urljoin BASE_URL (href a), strip (get_text a)))
            (get_player_links urljoin (Some s))
  /\ (forall pre c post,
        omap (player_candidate urljoin) (anchors s) = (pre ++ c :: post)%list ->
        fst c ∉ map fst pre ->
        In c (get_player_links urljoin (Some s)))
  /\ get_player_links urljoin None = []
  /\ sublist (get_player_links urljoin (Some s))
             (omap (player_candidate urljoin) (anchors s))
  /\ (forall c,
        In c (get_player_links urljoin (Some s)) ->
        exists pre post,
          omap (player_candidate urljoin) (anchors s)
          = (pre ++ c :: post)%list
          /\ (fst c ∉ map fst pre))
  /\ (forall l1 c1 l2 c2 l3,
        get_player_links urljoin (Some s)
        = (l1 ++ c1 :: l2 ++ c2 :: l3)%list ->
        exists p q r,
          omap (player_candidate urljoin) (anchors s)
          = (p ++ c1 :: q ++ c2 :: r)%list
          /\ (fst c1 ∉ map fst p)
          /\ (fst c2 ∉ map fst (p ++ c1 :: q))).
Proof.
  destruct (player_links_deduplicated urljoin s) as [E Hnd].
  split; [exact Hnd|].
  split; [|split; [|split; [reflexivity|split; [|split]]]].
  - rewrite E. apply List.Forall_forall. intros l Hl.
    apply first_by_url_sub in Hl as [Hl _].
    apply list_elem_of_In, list_elem_of_omap in Hl as (a & Ha & Hc).
    apply player_candidate_name in Hc as (H1 & H2 & H3 & H4).
    split; [exact H1|]. exists a. apply list_elem_of_In in Ha. auto.
  - intros pre c post Hc Hp. rewrite E, Hc.
    apply first_by_url_keeps_first; [apply not_elem_of_empty | exact Hp].
  - rewrite E. apply first_by_url_sublist.
  - intros c Hc. rewrite E in Hc.
    apply in_split in Hc as (l1 & l2 & Hc).
    destruct (first_by_url_split _ _ _ _ _ Hc) as (p & q & Hl & _ & Hp & _).
    exists p, q. split; assumption.
  - intros l1 c1 l2 c2 l3 H. rewrite E in H.
    exact (first_by_url_order _ _ _ _ _ _ H).
Qed.

Lemma length_omap_le {A B : Type} (f : A -> option B) (l : list A) :
  length (omap f l) <= length l.
Proof.
  induction l as [|x l IH]; [reflexivity|].
  change (omap f (x :: l))
    with (match f x with Some y => y :: omap f l | None => omap f l end).
  destruct (f x); simpl; lia.
Qed.

Lemma drop_closing_app (s : string) : drop_closing (s +:+ "]") = s.
Proof.
  induction s as [|c s IH]; [reflexivity|].
  change (String c s +:+ "]") with (String c (s +:+ "]")).
  cbn [drop_closing]. rewrite IH.
  assert (H : (String.eqb (s +:+ "]") "" || String.eqb (s +:+ "]") NL)
              = false).
  { destruct s as [|x [|y s]]; simpl; try reflexivity;
      now destruct (Ascii.eqb x "010"). }
  rewrite H, andb_false_r. reflexivity.
Qed.

(** [re.sub] takes the two brackets off a bracketed text and nothing
    else. *)
Lemma unbracket_bracketed (s : string) :
  unbracket (String "["%char (s +:+ "]")) = s.
Proof. unfold unbracket. apply drop_closing_app. Qed.

(** The link of one anchor of a player page: none unless the target has
    the interview pattern and the label is not empty; its date is the
    text between the brackets of the first nobr of the nearest enclosing
    row, and empty when there is no row or no nobr. *)
Theorem interview_link_date (a : node) (anc : list node) :
  (contains "show_interview.php?id=" (href a) = false
   \/ truthy (strip (get_text a)) = false ->
   interview_link urljoin (a, anc) = None)
  /\ (contains "show_interview.php?id=" (href a) = true ->
      truthy (strip (get_text a)) = true ->
      (forall tr nobr d,
          find_parent "tr" anc = Some tr -> find "nobr" tr = Some nobr ->
          strip (get_text nobr) = String "["%char (d +:+ "]") ->
          interview_link urljoin (a, anc)
          = Some (urljoin BASE_URL (href a), strip (get_text a), d))
      /\ (find_parent "tr" anc = None
          \/ (exists tr, find_parent "tr" anc = Some tr
                         /\ find "nobr" tr = None) ->
          interview_link urljoin (a, anc)
          = Some (urljoin BASE_URL (href a), strip (get_text a), ""))).
Proof.
  split.
  - intros [H|H]; unfold interview_link; rewrite H; simpl; [reflexivity|].
    now destruct (contains "show_interview.php?id=" (href a)).
  - intros H1 H2. unfold interview_link. rewrite H1, H2. simpl. split.
    + intros tr nobr d Htr Hn Hd. rewrite Htr, Hn, Hd.
      now rewrite unbracket_bracketed.
    + intros [Htr|(tr & Htr & Hn)]; rewrite Htr; [reflexivity|].
      now rewrite Hn.
Qed.

(** Every link of a player page has a label that is not empty and the
    URL of an anchor with the interview pattern, there are no more links
    than anchors, and no page gives no link. *)
Theorem interview_links_from_anchors (s : soup) :
  Forall (fun l =>
            truthy (snd (fst l)) = true
            /\ exists a,
                 In a (anchors s)
                 /\ contains "show_interview.php?id=" (href a) = true
                 /\ fst (fst l) = urljoin BASE_URL (href a)
                 /\ snd (fst l) = strip (get_text a))
         (get_interview_links urljoin (Some s))
  /\ length (get_interview_links urljoin (Some s)) <= length (anchors s)
  /\ get_interview_links urljoin None = [].
Proof.
  split; [|split; [|reflexivity]].
  - apply List.Forall_forall. intros l Hl. unfold get_interview_links in Hl.
    apply list_elem_of_In, list_elem_of_omap in Hl as ([a anc] & Ha & Hl).
    unfold interview_link in Hl.
    destruct (contains "show_interview.php?id=" (href a)) eqn:E1;
      [|discriminate].
    destruct (truthy (strip (get_text a))) eqn:E2; [|discriminate].
    simpl in Hl. injection Hl as <-. simpl. split; [exact E2|].
    exists a. split; [|split; [exact E1 | split; reflexivity]].
    unfold anchors. apply list_elem_of_In in Ha.
    apply (in_map fst) in Ha. exact Ha.
  - unfold get_interview_links, anchors. rewrite length_map.
    apply length_omap_le.
Qed.

End MoreLinkFacts.

(** On the player page of the examples the date of the first link is
    the text between the brackets of its row. *)
Lemma interview_link_date_fixture :
  interview_link Fixture.urljoin
    (Fixture.a "show_interview.php?id=7" "Game 1",
     [Fixture.el "td" [Fixture.a "show_interview.php?id=7" "Game 1"];
      Fixture.el "tr"
        [Fixture.el "td" [Fixture.a "show_interview.php?id=7" "Game 1"];
         Fixture.el "td" [Fixture.el "nobr" [Text "[October 4, 2023]"]]]])
  = Some ("https://www.asapsports.com/show_interview.php?id=7", "Game 1",
          "October 4, 2023").
Proof.
  refine (proj1 (proj2 (interview_link_date Fixture.urljoin _ _) _ _)
            _ _ _ _ _ _); reflexivity.
Defined.

(** ** What the date pattern accepts *)

Section MoreDateFacts.

Lemma matches_class_inv (p : ascii -> bool) (s : string) :
  Matches (Class p) s -> exists c, s = String c "" /\ p c = true.
Proof. intros H. inversion H; subst. eauto. Qed.

Lemma matches_star_class_inv (p : ascii -> bool) (s : string) :
  Matches (Star (Class p)) s -> all_of p s = true.
Proof.
  intros H. remember (Star (Class p)) as r eqn:Hr.
  induction H as [ | q c Hq | r1 r2 s1 s2 H1 IH1 H2 IH2
                 | r1 r2 s' H IH | r1 r2 s' H IH | r0 | r0 s1 s2 H1 IH1 H2 IH2 ];
    try discriminate; [reflexivity|].
  injection Hr as ->.
  apply matches_class_inv in H1 as (c & -> & Hc).
  simpl. rewrite Hc. now apply IH2.
Qed.

Lemma matches_plus_class_inv (p : ascii -> bool) (s : string) :
  Matches (Plus (Class p)) s -> some_of p s = true.
Proof.
  intros H. inversion H as [ | | r1 r2 s1 s2 H1 H2 | | | | ]; subst.
  apply matches_class_inv in H1 as (c & -> & Hc).
  apply matches_star_class_inv in H2.
  unfold some_of. simpl. now rewrite Hc, H2.
Qed.

Lemma matches_day_inv (s : string) :
  Matches (Cat (Class is_digit) (Opt (Class is_digit))) s ->
  day_shape s = true.
Proof.
  intros H. inversion H as [ | | r1 r2 s1 s2 H1 H2 | | | | ]; subst.
  apply matches_class_inv in H1 as (a & -> & Ha).
  inversion H2 as [ | | | ? ? ? HL | ? ? ? HR | | ]; subst.
  - apply matches_class_inv in HL as (b & -> & Hb). simpl.
    now rewrite Ha, Hb.
  - inversion HR; subst. simpl. exact Ha.
Qed.

Lemma matches_year_inv (s : string) :
  Matches (Cat (Class is_digit) (Cat (Class is_digit)
          (Cat (Class is_digit) (Class is_digit)))) s ->
  year_shape s = true.
Proof.
  intros H. inversion H as [ | | ? ? ? ? Ha H' | | | | ]; subst.
  inversion H' as [ | | ? ? ? ? Hb H'' | | | | ]; subst.
  inversion H'' as [ | | ? ? ? ? Hc Hd | | | | ]; subst.
  apply matches_class_inv in Ha as (a & -> & Ha).
  apply matches_class_inv in Hb as (b & -> & Hb).
  apply matches_class_inv in Hc as (c & -> & Hc).
  apply matches_class_inv in Hd as (d & -> & Hd).
  simpl. now rewrite Ha, Hb, Hc, Hd.
Qed.

Lemma matches_comma_inv (s : string) :
  Matches (Opt (Lit ","%char)) s ->
  exists comma : bool, s = if comma then "," else "".
Proof.
  intros H. inversion H as [ | | | ? ? ? HL | ? ? ? HR | | ]; subst.
  - apply matches_class_inv in HL as (c & -> & Hc).
    apply Ascii.eqb_eq in Hc as <-. now exists true.
  - inversion HR; subst. now exists false.
Qed.

Lemma matches_date_inv (t : string) :
  Matches DATE_RE t -> date_shaped t.
Proof.
  unfold DATE_RE. intros H.
  inversion H as [ | | ? ? s1 r1 Hu H1 | | | | ]; subst.
  inversion H1 as [ | | ? ? s2 r2 Hl H2 | | | | ]; subst.
  inversion H2 as [ | | ? ? s3 r3 Hw1 H3 | | | | ]; subst.
  inversion H3 as [ | | ? ? s4 r4 Hd H4 | | | | ]; subst.
  inversion H4 as [ | | ? ? s5 r5 Hc H5 | | | | ]; subst.
  inversion H5 as [ | | ? ? s6 r6 Hw2 Hy | | | | ]; subst.
  apply matches_class_inv in Hu as (u & -> & Hu).
  apply matches_plus_class_inv in Hl.
  apply matches_plus_class_inv in Hw1.
  apply matches_day_inv in Hd.
  apply matches_comma_inv in Hc as (comma & ->).
  apply matches_plus_class_inv in Hw2.
  apply matches_year_inv in Hy.
  exists u, s2, s3, s4, comma, s6, r6. repeat (split; [assumption|]).
  reflexivity.
Qed.

Lemma date_shaped_matches (t : string) :
  date_shaped t -> Matches DATE_RE t.
Proof.
  intros (u & lows & ws1 & day & comma & ws2 & year
          & Hu & Hl & Hw1 & Hd & Hw2 & Hy & ->).
  unfold date_heading, DATE_RE.
  match goal with
  | |- Matches _ (String ?c ?rest) =>
      change (String c rest) with (String c "" +:+ rest)
  end.
  apply MCat; [now apply MClass|].
  apply MCat; [now apply plus_class|].
  apply MCat; [now apply plus_class|].
  apply MCat; [now apply day_matches|].
  apply MCat; [apply comma_matches|].
  apply MCat; [now apply plus_class | now apply year_matches].
Qed.

(** The date test of source lines 145 and 154 accepts exactly the texts
    of the date shape, and such a text followed by one line feed. *)
Theorem is_date_exact (t : string) :
  is_date t = true
  <-> date_shaped t \/ exists t0, date_shaped t0 /\ t = t0 +:+ NL.
Proof.
  unfold is_date, re_match_dollar. rewrite re_fullmatch_spec. split.
  - intros H. inversion H as [ | | ? ? s1 s2 H1 H2 | | | | ]; subst.
    apply matches_date_inv in H1.
    inversion H2 as [ | | | ? ? ? HL | ? ? ? HR | | ]; subst.
    + apply matches_class_inv in HL as (c & -> & Hc).
      apply Ascii.eqb_eq in Hc as <-. right. now exists s1.
    + inversion HR; subst. left. now rewrite app_empty_r.
  - intros [H|(t0 & H & ->)].
    + rewrite <- (app_empty_r t).
      apply MCat; [now apply date_shaped_matches | apply MAltR, MEps].
    + apply MCat; [now apply date_shaped_matches|].
      apply MAltL. now apply MClass.
Qed.

Lemma is_date_truthy (t : string) : is_date t = true -> truthy t = true.
Proof. destruct t; [vm_compute; discriminate | reflexivity]. Qed.

End MoreDateFacts.

(** ** What the heading loop leaves in each field *)

Section MoreHeadingFacts.

Lemma map_snd_combine_seq {A : Type} (l : list A) :
  forall k, map snd (combine (seq k (length l)) l) = l.
Proof.
  induction l as [|x l IH]; intros k; simpl; [reflexivity|].
  now rewrite IH.
Qed.

Lemma map_snd_enumerate {A : Type} (l : list A) : map snd (enumerate l) = l.
Proof. apply map_snd_combine_seq. Qed.

Lemma classify_h3_name_step (d : data) (i : nat) (t : string) :
  truthy (player_name d) = false ->
  player_name (classify_h3 d (i, t))
  = if plain_heading t then t else "".
Proof.
  intros H. apply truthy_false in H as Hn.
  unfold classify_h3, plain_heading. rewrite H.
  destruct (truthy t); simpl; [|exact Hn].
  destruct (is_date t); simpl; [exact Hn | reflexivity].
Qed.

Lemma fold_name_first (l : list (nat * string)) :
  forall d, truthy (player_name d) = false ->
  player_name (fold_left classify_h3 l d)
  = first_text plain_heading (map snd l).
Proof.
  unfold first_text.
  induction l as [|[i t] l IH]; intros d H.
  - now apply truthy_false.
  - pose proof (classify_h3_name_step d i t H) as Hs.
    cbn [fold_left map snd List.filter].
    destruct (plain_heading t) eqn:E.
    + rewrite fold_keeps_name; rewrite Hs; [reflexivity|].
      unfold plain_heading in E. now apply andb_true_iff in E as [E _].
    + apply IH. now rewrite Hs.
Qed.

Lemma classify_h3_date_step (d : data) (i : nat) (t : string) :
  truthy (date d) = false ->
  date (classify_h3 d (i, t)) = if is_date t then t else "".
Proof.
  intros H. apply truthy_false in H as Hn.
  unfold classify_h3. rewrite H.
  destruct (truthy t) eqn:Et; simpl.
  - destruct (is_date t); simpl; [reflexivity|].
    repeat match goal with
           | |- context [if ?c then _ else _] =>
               let E := fresh "E" in destruct c eqn:E
           end; exact Hn.
  - destruct (is_date t) eqn:Ed; [|exact Hn].
    apply is_date_truthy in Ed. congruence.
Qed.

Lemma fold_date_first (l : list (nat * string)) :
  forall d, truthy (date d) = false ->
  date (fold_left classify_h3 l d) = first_text is_date (map snd l).
Proof.
  unfold first_text.
  induction l as [|[i t] l IH]; intros d H.
  - now apply truthy_false.
  - pose proof (classify_h3_date_step d i t H) as Hs.
    cbn [fold_left map snd List.filter].
    destruct (is_date t) eqn:E.
    + rewrite fold_keeps_date; rewrite Hs; [reflexivity|].
      now apply is_date_truthy.
    + apply IH. now rewrite Hs.
Qed.

(** The loop does not touch the two fields read from the h1. *)
Lemma classify_h3_title (d : data) (it : nat * string) :
  event (classify_h3 d it) = event d
  /\ interview_title (classify_h3 d it) = interview_title d
  /\ transcript (classify_h3 d it) = transcript d.
Proof.
  destruct it as [i t]. unfold classify_h3.
  repeat match goal with
         | |- context [if ?c then _ else _] =>
             let E := fresh "E" in destruct c eqn:E
         end; auto.
Qed.

Lemma fold_title (l : list (nat * string)) :
  forall d, event (fold_left classify_h3 l d) = event d
            /\ interview_title (fold_left classify_h3 l d)
               = interview_title d.
Proof.
  induction l as [|it l IH]; intros d; simpl; [auto|].
  destruct (IH (classify_h3 d it)) as [H1 H2].
  destruct (classify_h3_title d it) as (H3 & H4 & _).
  split; congruence.
Qed.

Lemma any_in_venue_2 (t : string) :
  any_in VENUE_WORDS t = true -> any_in VENUE_WORDS_2 t = true.
Proof.
  unfold any_in, VENUE_WORDS, VENUE_WORDS_2. simpl.
  rewrite !orb_false_r. intros H.
  repeat (apply orb_true_iff in H as [H|H]); rewrite H;
    rewrite ?orb_true_r; reflexivity.
Qed.

(** One round of the loop keeps the three keyword fields texts with a
    word of their vocabulary. *)
Lemma classify_h3_words (d : data) (it : nat * string) :
  holds_word VENUE_WORDS_2 (venue d) ->
  holds_word SESSION_WORDS (session_type d) ->
  holds_word TEAM_WORDS (team d) ->
  holds_word VENUE_WORDS_2 (venue (classify_h3 d it))
  /\ holds_word SESSION_WORDS (session_type (classify_h3 d it))
  /\ holds_word TEAM_WORDS (team (classify_h3 d it)).
Proof.
  intros Hv Hs Ht. destruct it as [i t]. unfold classify_h3.
  destruct (negb (truthy t)); [auto|].
  destruct (is_date t); [auto|].
  destruct (negb (truthy (player_name d))); [auto|].
  destruct (any_in VENUE_WORDS (lower t)) eqn:E1.
  { simpl. split; [right; now apply any_in_venue_2 | auto]. }
  destruct (any_in SESSION_WORDS (lower t)) eqn:E2.
  { simpl. split; [auto | split; [now right | auto]]. }
  destruct (negb (truthy (team d)) && any_in TEAM_WORDS (lower t)) eqn:E3.
  { apply andb_true_iff in E3 as [_ E3]. simpl.
    split; [auto | split; [auto | now right]]. }
  destruct (negb (truthy (venue d)) && contains "," t && (3 <=? i)%nat
            && any_in VENUE_WORDS_2 (lower t)) eqn:E4; [|auto].
  apply andb_true_iff in E4 as [_ E4]. simpl.
  split; [now right | auto].
Qed.

Lemma extract_fields (s : soup) :
  let d := fst (extract_transcript_metadata_and_text (Some s)) in
  let d0 := read_h3 s (read_h2 s (read_h1 s empty_data)) in
  player_name d = player_name d0 /\ date d = date d0
  /\ event d = event d0 /\ interview_title d = interview_title d0
  /\ venue d = venue d0 /\ team d = team d0
  /\ session_type d = session_type d0.
Proof.
  simpl. unfold extract_transcript_metadata_and_text.
  destruct (transcript_parts s); [|simpl; tauto].
  destruct (_fallback_transcript_text s). simpl. tauto.
Qed.

End MoreHeadingFacts.

(** The player name is the first h3 text that is not empty and does not
    read as a date (empty when there is none); the date is the text of
    the first h2 when it reads as a date, else the first h3 text that
    does (empty when there is none). *)
Theorem name_and_date_first_match (s : soup) :
  player_name (fst (extract_transcript_metadata_and_text (Some s)))
  = first_text plain_heading (h3_texts s)
  /\ date (fst (extract_transcript_metadata_and_text (Some s)))
     = match soup_find "h2" s with
       | Some h2 =>
           if is_date (text_of h2) then text_of h2
           else first_text is_date (h3_texts s)
       | None => first_text is_date (h3_texts s)
       end.
Proof.
  destruct (extract_fields s) as (Hn & Hd & _). rewrite Hn, Hd.
  unfold read_h3, classify_all. split.
  - rewrite fold_name_first, map_snd_enumerate; [reflexivity|].
    unfold read_h2, read_h1.
    destruct (soup_find "h1" s), (soup_find "h2" s); simpl;
      try (destruct (is_date (text_of _))); reflexivity.
  - unfold read_h2.
    assert (H0 : date (read_h1 s empty_data) = "").
    { unfold read_h1. now destruct (soup_find "h1" s). }
    destruct (soup_find "h2" s) as [h2|].
    + destruct (is_date (text_of h2)) eqn:E.
      * rewrite fold_keeps_date; [reflexivity|].
        simpl. now apply is_date_truthy.
      * rewrite fold_date_first, map_snd_enumerate; [reflexivity|].
        now rewrite H0.
    + rewrite fold_date_first, map_snd_enumerate; [reflexivity|].
      now rewrite H0.
Qed.

Lemma h1_fields (s : soup) :
  interview_title (fst (extract_transcript_metadata_and_text (Some s)))
  = default "" (text_of <$> soup_find "h1" s)
  /\ event (fst (extract_transcript_metadata_and_text (Some s)))
     = default "" (text_of <$> soup_find "h1" s).
Proof.
  destruct (extract_fields s) as (_ & _ & He & Ht & _). rewrite He, Ht.
  unfold read_h3, classify_all.
  destruct (fold_title (enumerate (h3_texts s))
              (read_h2 s (read_h1 s empty_data))) as [H1 H2].
  rewrite H1, H2. unfold read_h2, read_h1.
  destruct (soup_find "h1" s), (soup_find "h2" s); simpl;
    try (destruct (is_date (text_of _))); auto.
Qed.

(** The title and the event are both the stripped text of the first h1,
    and both empty when the page has no h1; no heading changes them. *)
Theorem title_and_event_from_h1 (s : soup) :
  interview_title (fst (extract_transcript_metadata_and_text (Some s)))
  = default "" (text_of <$> soup_find "h1" s)
  /\ event (fst (extract_transcript_metadata_and_text (Some s)))
     = default "" (text_of <$> soup_find "h1" s)
  /\ interview_title (fst (extract_transcript_metadata_and_text (Some s)))
     = event (fst (extract_transcript_metadata_and_text (Some s))).
Proof.
  destruct (h1_fields s) as [H1 H2]. rewrite H1, H2. auto.
Qed.

(** Whatever the page, the venue is empty or a heading with a venue
    word, the session type is empty or a heading with a session word,
    and the team is empty or a heading with a team name. *)
Theorem keyword_fields_hold_their_words (s : soup) :
  holds_word VENUE_WORDS_2
             (venue (fst (extract_transcript_metadata_and_text (Some s))))
  /\ holds_word SESSION_WORDS
       (session_type (fst (extract_transcript_metadata_and_text (Some s))))
  /\ holds_word TEAM_WORDS
       (team (fst (extract_transcript_metadata_and_text (Some s)))).
Proof.
  destruct (extract_fields s) as (_ & _ & _ & _ & Hv & Ht & Hs).
  rewrite Hv, Ht, Hs. unfold read_h3, classify_all.
  apply (fold_left_inv
           (fun d => holds_word VENUE_WORDS_2 (venue d)
                     /\ holds_word SESSION_WORDS (session_type d)
                     /\ holds_word TEAM_WORDS (team d))).
  - intros d it (H1 & H2 & H3). now apply classify_h3_words.
  - unfold read_h2, read_h1, holds_word.
    destruct (soup_find "h1" s), (soup_find "h2" s); simpl;
      try (destruct (is_date (text_of _))); simpl; auto.
Qed.

(** ** The body text holds no trailer *)

Section MoreBodyFacts.

Lemma startswith_before_char (m p b : string) (c : ascii) :
  lacks c m = true ->
  startswith m (p +:+ String c b) = true -> startswith m p = true.
Proof.
  revert p. induction m as [|x m IH]; intros p Hm H; [reflexivity|].
  unfold lacks in Hm. simpl in Hm. apply andb_true_iff in Hm as [Hx Hm].
  destruct p as [|y p]; simpl in H.
  - apply andb_true_iff in H as [H _]. apply Ascii.eqb_eq in H as ->.
    rewrite Ascii.eqb_refl in Hx. discriminate.
  - apply andb_true_iff in H as [Hxy H]. simpl. rewrite Hxy.
    now apply (IH p).
Qed.

(** A marker without the character [c] that occurs in two texts put
    together around [c] occurs in one of them. *)
Lemma contains_around_char (m a b : string) (c : ascii) :
  m <> "" -> lacks c m = true ->
  contains m (a +:+ String c b) = true ->
  contains m a = true \/ contains m b = true.
Proof.
  intros Hne Hm. induction a as [|y a IH]; intros H.
  - change ("" +:+ String c b) with (String c b) in H.
    change (contains m (String c b))
      with (startswith m (String c b) || contains m b) in H.
    apply orb_true_iff in H as [H|H]; [|now right].
    apply (startswith_before_char m "" b c Hm) in H.
    destruct m; [congruence | discriminate].
  - change (String y a +:+ String c b) with (String y (a +:+ String c b)) in H.
    change (contains m (String y (a +:+ String c b)))
      with (startswith m (String y (a +:+ String c b))
            || contains m (a +:+ String c b)) in H.
    apply orb_true_iff in H as [H|H].
    + left. change (String y (a +:+ String c b))
              with (String y a +:+ String c b) in H.
      apply (startswith_before_char m _ b c Hm) in H.
      change (contains m (String y a))
        with (startswith m (String y a) || contains m a).
      now rewrite H.
    + destruct (IH H) as [H'|H']; [left | now right].
      change (contains m (String y a))
        with (startswith m (String y a) || contains m a).
      rewrite H'. apply orb_true_r.
Qed.

Lemma contains_empty_text (m : string) : m <> "" -> contains m "" = false.
Proof. destruct m; [congruence | reflexivity]. Qed.

(** Paragraphs joined by a blank line hold a marker (of one line) only
    if one of them does. *)
Lemma join_clean (m : string) (parts : list string) :
  m <> "" -> lacks "010"%char m = true ->
  Forall (fun t => contains m t = false) parts ->
  contains m (join (NL +:+ NL) parts) = false.
Proof.
  intros Hne Hm H. induction H as [|t parts Ht Hparts IH].
  - now apply contains_empty_text.
  - destruct parts as [|t' parts]; [exact Ht|].
    change (join (NL +:+ NL) (t :: t' :: parts))
      with (t +:+ String "010"%char
              ("" +:+ String "010"%char (join (NL +:+ NL) (t' :: parts)))).
    destruct (contains m (t +:+ String "010"%char
                ("" +:+ String "010"%char (join (NL +:+ NL) (t' :: parts)))))
      eqn:E; [|reflexivity].
    apply (contains_around_char m _ _ _ Hne Hm) in E as [E|E];
      [congruence|].
    apply (contains_around_char m _ _ _ Hne Hm) in E as [E|E].
    + rewrite contains_empty_text in E by exact Hne. discriminate.
    + congruence.
Qed.

(** A text that holds a marker holds every start of the marker. *)
Lemma contains_longer (m x t : string) :
  contains (m +:+ x) t = true -> contains m t = true.
Proof.
  induction t as [|c t IH]; intros H.
  - simpl in H. rewrite orb_false_r in H.
    destruct m; [reflexivity | discriminate].
  - change (contains (m +:+ x) (String c t))
      with (startswith (m +:+ x) (String c t) || contains (m +:+ x) t) in H.
    change (contains m (String c t))
      with (startswith m (String c t) || contains m t).
    apply orb_true_iff in H as [H|H].
    + destruct (startswith_inv _ _ H) as [q Hq].
      rewrite Hq, app_assoc_s, startswith_app. reflexivity.
    + rewrite (IH H). apply orb_true_r.
Qed.

Lemma kept_paragraphs_clean (l : list string) :
  Forall (fun t => contains "FastScripts Transcript" t = false)
         (collect_paragraphs l)
  /\ Forall (fun t => contains "ASAP Sports, Inc." t = false)
            (collect_paragraphs l).
Proof.
  pose proof (collect_paragraphs_clean l) as H.
  split; (eapply List.Forall_impl; [|exact H]); intros t [_ Ht];
    unfold is_trailer in Ht; apply orb_false_iff in Ht as [H1 H2];
    [exact H1|].
  destruct (contains "ASAP Sports, Inc." t) eqn:E; [|reflexivity].
  apply (contains_longer "ASAP Sports, Inc" ".") in E. congruence.
Qed.

Lemma td_text_clean (td : node) :
  Forall (fun t => contains "FastScripts Transcript" t = false) (td_text td)
  /\ Forall (fun t => contains "ASAP Sports, Inc." t = false) (td_text td).
Proof.
  unfold td_text.
  assert (H : Forall (fun m : string => m <> "") CELL_MARKERS)
    by (repeat constructor; discriminate).
  pose proof (cut_at_clean CELL_MARKERS H (get_text_sep NL td)) as Hc.
  inversion Hc as [|? ? H1 Hc']; subst.
  inversion Hc' as [|? ? H2 _]; subst.
  destruct (truthy (strip (cut_at CELL_MARKERS (get_text_sep NL td))));
    split; repeat constructor; now apply strip_clean.
Qed.

End MoreBodyFacts.

(** Whatever the page, and whichever of the three ways the body text is
    made, it holds neither "FastScripts Transcript" nor
    "ASAP Sports, Inc.". *)
Theorem transcript_holds_no_trailer (s : option soup) :
  contains "FastScripts Transcript"
           (transcript (fst (extract_transcript_metadata_and_text s))) = false
  /\ contains "ASAP Sports, Inc."
              (transcript (fst (extract_transcript_metadata_and_text s)))
     = false.
Proof.
  destruct s as [s|]; [|split; reflexivity].
  destruct (transcript_parts s) as [|p ps] eqn:E.
  - rewrite (transcript_of_fallback s E). simpl.
    pose proof (fallback_clean s) as H.
    inversion H as [|? ? H1 H']; subst. inversion H' as [|? ? H2 _]; subst.
    split; assumption.
  - rewrite (transcript_of_parts s p ps E).
    unfold set_transcript. cbn [fst transcript]. rewrite <- E.
    assert (H : Forall (fun t => contains "FastScripts Transcript" t = false)
                       (transcript_parts s)
                /\ Forall (fun t => contains "ASAP Sports, Inc." t = false)
                          (transcript_parts s)).
    { unfold transcript_parts, paragraph_parts.
      destruct (main_td s) as [td|]; [|split; constructor].
      destruct (collect_paragraphs (paragraph_texts td)) eqn:Ec.
      - apply td_text_clean.
      - rewrite <- Ec. apply kept_paragraphs_clean. }
    destruct H as [H1 H2].
    split; apply join_clean; try assumption; try discriminate; reflexivity.
Qed.

(** ** The store: what is loaded, the header, and a row written then
    read *)

Section MoreStoreFacts.

Lemma row_id_spec (row : gmap string (option string)) (v : string) :
  row_id row = Some v
  <-> row !! "interview_id" = Some (Some v) /\ truthy v = true.
Proof.
  unfold row_id. destruct (row !! "interview_id") as [[w|]|].
  - destruct (truthy w) eqn:E; split.
    + intros [= ->]. auto.
    + intros [[= ->] _]. reflexivity.
    + discriminate.
    + intros [[= ->] H]. congruence.
  - split; [discriminate | intros [H _]; discriminate].
  - split; [discriminate | intros [H _]; discriminate].
Qed.

Lemma scan_rows_sound (names : list string) (ls : list line) :
  forall ids x,
    x ∈ fst (scan_rows names ls ids) ->
    x ∈ ids
    \/ exists row v,
         In row (rows_of names ls)
         /\ row !! "interview_id" = Some (Some v)
         /\ truthy v = true /\ x = strip v.
Proof.
  induction ls as [|[fs|e] ls IH]; intros ids x H; simpl in H;
    [now left| |now left].
  destruct fs as [|f fs]; [exact (IH _ _ H)|].
  cbn [rows_of].
  destruct (row_id (dict_row names (f :: fs))) as [v|] eqn:E.
  - apply row_id_spec in E as [E1 E2].
    destruct (IH _ _ H) as [Hx|(row & w & H1 & H2 & H3 & H4)].
    + apply elem_of_union in Hx as [Hx|Hx]; [|now left].
      apply elem_of_singleton in Hx. right.
      exists (dict_row names (f :: fs)), v.
      split; [now left | auto].
    + right. exists row, w. split; [now right | auto].
  - destruct (IH _ _ H) as [Hx|(row & w & H1 & H2 & H3 & H4)];
      [now left|].
    right. exists row, w. split; [now right | auto].
Qed.

Lemma scan_sound (f : file) (ids : gset string) (x : string) :
  load_scraped_ids f = inr ids -> x ∈ ids ->
  exists row v,
    In row (rows_read f)
    /\ row !! "interview_id" = Some (Some v)
    /\ truthy v = true /\ x = strip v.
Proof.
  intros Hl Hx. destruct f as [|ls]; simpl in Hl.
  - injection Hl as <-. now apply not_elem_of_empty in Hx.
  - assert (Hs : x ∈ fst (scan ls)).
    { destruct (scan ls) as [ids' [e|]]; simpl.
      - destruct (caught e); congruence.
      - congruence. }
    unfold scan in Hs. destruct ls as [|[names|e] rest]; simpl in Hs.
    + now apply not_elem_of_empty in Hs.
    + destruct (negb (bool_decide (names = []))
                && bool_decide ("interview_id" ∈ names));
        [|now apply not_elem_of_empty in Hs].
      apply scan_rows_sound in Hs as [Hs|Hs];
        [now apply not_elem_of_empty in Hs | exact Hs].
    + now apply not_elem_of_empty in Hs.
Qed.

End MoreStoreFacts.

(** The set loaded from a store is exactly the set of the stripped
    [interview_id] values of the rows read that have one. *)
Theorem load_exact (f : file) (ids : gset string) :
  load_scraped_ids f = inr ids ->
  forall x,
    x ∈ ids
    <-> exists row v,
          In row (rows_read f)
          /\ row !! "interview_id" = Some (Some v)
          /\ truthy v = true /\ x = strip v.
Proof.
  intros Hl x. split.
  - now apply scan_sound.
  - intros (row & v & H1 & H2 & H3 & ->). eapply load_member; eauto.
Qed.

(** The identifier loaded from the store with the row of interview 7
    comes from a row of that store. *)
Lemma load_exact_fixture :
  exists row v,
    In row (rows_read Fixture.store_with_7)
    /\ row !! "interview_id" = Some (Some v)
    /\ truthy v = true /\ "7" = strip v.
Proof.
  refine (proj1 (load_exact Fixture.store_with_7 {["7"]} _ "7") _).
  - vm_compute. reflexivity.
  - apply elem_of_singleton. reflexivity.
Defined.

(** Writing the header is done once: a second call changes nothing, a
    file with a line is left as it is, the result always has a first
    line, and the set loaded is the same before and after. *)
Theorem ensure_header_once (f : file) :
  ensure_csv_header (ensure_csv_header f) = ensure_csv_header f
  /\ (forall l ls, f = File (l :: ls) -> ensure_csv_header f = f)
  /\ (exists l ls, ensure_csv_header f = File (l :: ls))
  /\ load_scraped_ids (ensure_csv_header f) = load_scraped_ids f.
Proof.
  destruct f as [|[|l ls]]; (split; [reflexivity|]);
    (split; [intros l' ls' H; try discriminate; reflexivity|]);
    (split; [simpl; eauto|]); try reflexivity;
    vm_compute; reflexivity.
Qed.

(** ** What a run writes *)

Section RunFacts.

Variable urljoin : string -> string -> string.
Variable query_ids : string -> list string.
Variable net : nat -> string -> option soup.

Lemma fetched_snoc (log : list request) (r : request) :
  fetched (log ++ [r])
  = (fetched log
     ++ (if is_role InterviewPage r && req_ok r then [req_url r] else []))%list.
Proof.
  unfold fetched. rewrite List.filter_app, map_app. cbn [List.filter].
  now destruct (is_role InterviewPage r && req_ok r).
Qed.

Lemma letters_asked_snoc (log : list request) (r : request) :
  letters_asked (log ++ [r])
  = (letters_asked log
     ++ (if is_role LetterPage r then [req_url r] else []))%list.
Proof.
  unfold letters_asked. rewrite List.filter_app, map_app. cbn [List.filter].
  now destruct (is_role LetterPage r).
Qed.

(** What [scrape_interview] gives: nothing when the request fails, else
    a row with the identifier and the URL it was given; the state has
    the request added either way. *)
Lemma scrape_cases (st : crawl) (u iid name title date_ : string) :
  (net (length (requests st)) u = None
   /\ scrape_interview net st u iid name title date_
      = (None, mk_crawl (csv_file st) (scraped_ids st) (total_new st)
                 (requests st ++ [mk_request InterviewPage u false])%list))
  \/ (exists d,
        scrape_interview net st u iid name title date_
        = (Some (mk_row d iid u),
           mk_crawl (csv_file st) (scraped_ids st) (total_new st)
             (requests st ++ [mk_request InterviewPage u true])%list)).
Proof.
  unfold scrape_interview, get_soup.
  destruct (net (length (requests st)) u) as [page|]; [right | now left].
  eexists. reflexivity.
Qed.

Lemma get_soup_written (ls0 : list line) (ids0 : gset string)
      (new : list row) (st : crawl) (r : role) (u : string) :
  r <> InterviewPage ->
  written query_ids ls0 ids0 new st ->
  written query_ids ls0 ids0 new (snd (get_soup net st r u)).
Proof.
  intros Hr (H1 & H2 & H3 & H4 & H5 & H6).
  repeat (split; [assumption|]). unfold get_soup. cbn [snd requests].
  rewrite fetched_snoc.
  assert (E : is_role InterviewPage
                (mk_request r u
                   (bool_decide (is_Some (net (length (requests st)) u))))
              = false) by (now destruct r).
  rewrite E. simpl. now rewrite app_nil_r.
Qed.

Lemma handle_interview_written (ls0 : list line) (ids0 : gset string)
      (new : list row) (name : string) (st : crawl)
      (link : string * string * string) :
  written query_ids ls0 ids0 new st ->
  exists new',
    written query_ids ls0 ids0 new'
            (handle_interview query_ids net name st link).
Proof.
  intros (H1 & H2 & H3 & H4 & H5 & H6).
  assert (Hst : written query_ids ls0 ids0 new st) by (repeat split; assumption).
  destruct link as [[u title] date_]. unfold handle_interview.
  destruct (parse_interview_id query_ids u) as [iid|] eqn:Hp; [|eauto].
  destruct (negb (truthy iid)) eqn:Ht; [eauto|].
  destruct (bool_decide (iid ∈ scraped_ids st)) eqn:Hin; [eauto|].
  apply negb_false_iff in Ht. apply bool_decide_eq_false in Hin.
  destruct (scrape_cases st u iid name title date_) as [[_ E]|[d E]];
    rewrite E.
  - exists new. repeat (split; [assumption|]).
    cbn [requests]. rewrite fetched_snoc. simpl. now rewrite app_nil_r.
  - exists (new ++ [mk_row d iid u])%list.
    unfold written. cbn [csv_file total_new scraped_ids requests].
    rewrite H3 in Hin.
    assert (Hnew : iid ∉ map interview_id new).
    { intros Hi. apply Hin. apply elem_of_union. left.
      now apply elem_of_list_to_set. }
    assert (Hids : iid ∉ ids0).
    { intros Hi. apply Hin. apply elem_of_union. now right. }
    split; [|split; [|split; [|split; [|split]]]].
    + rewrite H1. unfold append_row. rewrite map_app, app_assoc.
      reflexivity.
    + rewrite length_app, H2. simpl. lia.
    + rewrite H3, map_app, list_to_set_app_L. simpl.
      rewrite union_empty_r_L, (assoc_L (∪)). f_equal. apply (comm_L (∪)).
    + rewrite map_app. simpl. apply NoDup_app. split; [exact H4|].
      split; [|apply NoDup_singleton].
      intros x Hx Hx'. apply list_elem_of_singleton in Hx'. now subst.
    + apply Forall_app. split; [exact H5|].
      constructor; [|constructor]. simpl. auto.
    + rewrite map_app, H6, fetched_snoc. reflexivity.
Qed.

Lemma handle_interviews_written (ls0 : list line) (ids0 : gset string)
      (name : string) (links : list (string * string * string)) :
  forall new st,
    written query_ids ls0 ids0 new st ->
    exists new',
      written query_ids ls0 ids0 new'
              (handle_interviews query_ids net name st links).
Proof.
  unfold handle_interviews.
  induction links as [|l links IH]; intros new st H; simpl; [eauto|].
  destruct (handle_interview_written ls0 ids0 new name st l H) as [new' H'].
  exact (IH new' _ H').
Qed.

Lemma handle_player_written (ls0 : list line) (ids0 : gset string)
      (new : list row) (st : crawl) (p : string * string) :
  written query_ids ls0 ids0 new st ->
  exists new',
    written query_ids ls0 ids0 new'
            (handle_player urljoin query_ids net st p).
Proof.
  intros H. destruct p as [u n]. unfold handle_player.
  pose proof (get_soup_written ls0 ids0 new st PlayerPage u
                ltac:(discriminate) H) as H1.
  destruct (get_soup net st PlayerPage u) as [psoup st1]. simpl in H1.
  now apply (handle_interviews_written ls0 ids0 _ _ new).
Qed.

Lemma players_written (ls0 : list line) (ids0 : gset string)
      (ps : list (string * string)) :
  forall new st,
    written query_ids ls0 ids0 new st ->
    exists new',
      written query_ids ls0 ids0 new'
              (fold_left (handle_player urljoin query_ids net) ps st).
Proof.
  induction ps as [|p ps IH]; intros new st H; simpl; [eauto|].
  destruct (handle_player_written ls0 ids0 new st p H) as [new' H'].
  exact (IH new' _ H').
Qed.

Lemma handle_letter_written (ls0 : list line) (ids0 : gset string)
      (new : list row) (st : crawl) (u : string) :
  written query_ids ls0 ids0 new st ->
  exists new',
    written query_ids ls0 ids0 new'
            (handle_letter urljoin query_ids net st u).
Proof.
  intros H. unfold handle_letter.
  pose proof (get_soup_written ls0 ids0 new st LetterPage u
                ltac:(discriminate) H) as H1.
  destruct (get_soup net st LetterPage u) as [lsoup st1]. simpl in H1.
  now apply (players_written ls0 ids0 _ new).
Qed.

Lemma letters_written (ls0 : list line) (ids0 : gset string)
      (urls : list string) :
  forall new st,
    written query_ids ls0 ids0 new st ->
    exists new',
      written query_ids ls0 ids0 new'
              (fold_left (handle_letter urljoin query_ids net) urls st).
Proof.
  induction urls as [|u urls IH]; intros new st H; simpl; [eauto|].
  destruct (handle_letter_written ls0 ids0 new st u H) as [new' H'].
  exact (IH new' _ H').
Qed.

Lemma ensure_lines (f : file) :
  ensure_csv_header f = File (store_lines (ensure_csv_header f)).
Proof. now destruct f as [|[|l ls]]. Qed.

Lemma run_written (f : file) (resume : bool) (max_letters : option Z)
      (st : crawl) (ids0 : gset string) :
  run urljoin query_ids net f resume max_letters = inr st ->
  (if resume then load_scraped_ids f else inr ∅) = inr ids0 ->
  exists new,
    written query_ids (store_lines (ensure_csv_header f)) ids0 new st.
Proof.
  unfold run. intros Hrun Hids. rewrite Hids in Hrun.
  injection Hrun as <-.
  apply (letters_written _ ids0 _ []).
  unfold written. simpl. rewrite app_nil_r.
  split; [apply ensure_lines|]. split; [reflexivity|].
  split; [now rewrite union_empty_l_L|].
  split; [constructor|]. split; [constructor|]. reflexivity.
Qed.

(** The URLs of rows whose URL resolves to their identifier resolve to
    the identifiers of the rows, and are as distinct as these are. *)
Lemma urls_resolve (P : row -> Prop) (new : list row) :
  Forall (fun r => P r /\ parse_interview_id query_ids (url r)
                          = Some (interview_id r)) new ->
  omap (parse_interview_id query_ids) (map url new) = map interview_id new.
Proof.
  induction 1 as [|r new [_ Hp] _ IH]; [reflexivity|].
  change (omap (parse_interview_id query_ids) (map url (r :: new)))
    with (match parse_interview_id query_ids (url r) with
          | Some y => y :: omap (parse_interview_id query_ids) (map url new)
          | None => omap (parse_interview_id query_ids) (map url new)
          end).
  rewrite Hp, IH. reflexivity.
Qed.

Lemma urls_distinct (P : row -> Prop) (new : list row) :
  Forall (fun r => P r /\ parse_interview_id query_ids (url r)
                          = Some (interview_id r)) new ->
  NoDup (map interview_id new) -> NoDup (map url new).
Proof.
  induction 1 as [|r new [_ Hp] Hall IH]; intros Hnd; [constructor|].
  cbn [map] in *. apply NoDup_cons in Hnd as [Hr Hnd].
  apply NoDup_cons. split; [|now apply IH].
  intros Hin. apply Hr.
  apply list_elem_of_In, in_map_iff in Hin as (r' & Hu & Hr').
  rewrite List.Forall_forall in Hall. destruct (Hall r' Hr') as [_ Hp'].
  rewrite Hu, Hp in Hp'. injection Hp' as ->.
  apply list_elem_of_In, in_map_iff. now exists r'.
Qed.

(** The count of a run is the number of its requests for an interview
    page that got a page.  No URL and no identifier is fetched twice with
    success; each such request is for a URL that resolves to a non-empty
    identifier that was not in the set loaded; and the known set at the
    end is the set loaded with the identifiers of these requests. *)
Theorem run_counts_its_fetches (f : file) (resume : bool)
        (max_letters : option Z) (st : crawl) (ids0 : gset string) :
  run urljoin query_ids net f resume max_letters = inr st ->
  (if resume then load_scraped_ids f else inr ∅) = inr ids0 ->
  total_new st = length (fetched (requests st))
  /\ NoDup (fetched (requests st))
  /\ NoDup (omap (parse_interview_id query_ids) (fetched (requests st)))
  /\ Forall (fun u => exists iid,
                        parse_interview_id query_ids u = Some iid
                        /\ truthy iid = true /\ (iid ∉ ids0))
            (fetched (requests st))
  /\ scraped_ids st
     = list_to_set (omap (parse_interview_id query_ids)
                         (fetched (requests st))) ∪ ids0.
Proof.
  intros Hrun E.
  destruct (run_written f resume max_letters st ids0 Hrun E)
    as (new & _ & H2 & H3 & H4 & H5 & H6).
  assert (H5' : Forall (fun r => (truthy (interview_id r) = true
                                  /\ (interview_id r ∉ ids0))
                                 /\ parse_interview_id query_ids (url r)
                                    = Some (interview_id r)) new).
  { eapply List.Forall_impl; [|exact H5]. intros r (Ha & Hb & Hc). auto. }
  rewrite <- H6, (urls_resolve _ new H5').
  split; [now rewrite length_map|].
  split; [exact (urls_distinct _ new H5' H4)|].
  split; [exact H4|]. split; [|exact H3].
  apply List.Forall_forall. intros u Hu.
  apply in_map_iff in Hu as (r & <- & Hr).
  rewrite List.Forall_forall in H5. destruct (H5 r Hr) as (Ha & Hb & Hc).
  exists (interview_id r). auto.
Qed.

(** In one run no identifier is written twice, none that was loaded at
    the start is written, every identifier written is non-empty and is
    the one the URL of its row resolves to, and at the end the known set
    is the set loaded with the identifiers written. *)
Theorem run_writes_each_identifier_once (f : file) (resume : bool)
        (max_letters : option Z) (st : crawl) (ids0 : gset string) :
  run urljoin query_ids net f resume max_letters = inr st ->
  (if resume then load_scraped_ids f else inr ∅) = inr ids0 ->
  exists new,
    csv_file st
    = File (store_lines (ensure_csv_header f) ++ map as_line new)
    /\ NoDup (map interview_id new)
    /\ Forall (fun r => truthy (interview_id r) = true
                        /\ (interview_id r ∉ ids0)
                        /\ parse_interview_id query_ids (url r)
                           = Some (interview_id r)) new
    /\ scraped_ids st = list_to_set (map interview_id new) ∪ ids0.
Proof.
  intros Hrun E.
  destruct (run_written f resume max_letters st ids0 Hrun E)
    as (new & H1 & _ & H3 & H4 & H5 & _).
  exists new. auto.
Qed.

End RunFacts.

(** On the site of the examples a first run over one letter counts one
    new transcript and has one request for an interview page that got a
    page. *)
Lemma run_counts_its_fetches_fixture :
  total_new (state_of (run Fixture.urljoin Fixture.query_ids Fixture.site
                           Missing true (Some 1%Z)))
  = length (fetched (requests
                       (state_of (run Fixture.urljoin Fixture.query_ids
                                      Fixture.site Missing true
                                      (Some 1%Z)))))
  /\ fetched (requests
                (state_of (run Fixture.urljoin Fixture.query_ids
                               Fixture.site Missing true (Some 1%Z))))
     = ["https://www.asapsports.com/show_interview.php?id=7"].
Proof.
  split; [|vm_compute; reflexivity].
  refine (proj1 (run_counts_its_fetches
                   Fixture.urljoin Fixture.query_ids Fixture.site
                   Missing true (Some 1%Z) _ ∅ _ _)).
  - vm_compute. reflexivity.
  - reflexivity.
Defined.

Lemma run_writes_each_identifier_once_fixture :
  exists new,
    csv_file (state_of (run Fixture.urljoin Fixture.query_ids Fixture.site
                            Fixture.store_with_7 true (Some 1%Z)))
    = File (store_lines (ensure_csv_header Fixture.store_with_7)
            ++ map as_line new)
    /\ NoDup (map interview_id new)
    /\ Forall (fun r => truthy (interview_id r) = true
                        /\ (interview_id r ∉ ({["7"]} : gset string))
                        /\ parse_interview_id Fixture.query_ids (url r)
                           = Some (interview_id r)) new
    /\ scraped_ids (state_of (run Fixture.urljoin Fixture.query_ids
                                  Fixture.site Fixture.store_with_7 true
                                  (Some 1%Z)))
       = list_to_set (map interview_id new) ∪ {["7"]}.
Proof.
  apply (run_writes_each_identifier_once
           Fixture.urljoin Fixture.query_ids Fixture.site
           Fixture.store_with_7 true (Some 1%Z)).
  - vm_compute. reflexivity.
  - vm_compute. reflexivity.
Defined.

(** ** The requests of a run for letter pages, and failed fetches of
    letter and player pages *)

Section LetterFacts.

Variable urljoin : string -> string -> string.
Variable query_ids : string -> list string.
Variable net : nat -> string -> option soup.

Lemma get_soup_letters (st : crawl) (r : role) (u : string) :
  letters_asked (requests (snd (get_soup net st r u)))
  = (letters_asked (requests st)
     ++ (match r with LetterPage => [u] | _ => [] end))%list.
Proof.
  unfold get_soup. cbn [snd requests]. rewrite letters_asked_snoc.
  now destruct r.
Qed.

Lemma handle_interview_letters (name : string) (st : crawl)
      (link : string * string * string) :
  letters_asked (requests (handle_interview query_ids net name st link))
  = letters_asked (requests st).
Proof.
  destruct link as [[u title] date_]. unfold handle_interview.
  destruct (parse_interview_id query_ids u) as [iid|]; [|reflexivity].
  destruct (negb (truthy iid)); [reflexivity|].
  destruct (bool_decide (iid ∈ scraped_ids st)); [reflexivity|].
  pose proof (scrape_state net st u iid name title date_) as Hst.
  destruct (scrape_interview net st u iid name title date_) as [row st1].
  simpl in Hst. subst st1.
  pose proof (get_soup_letters st InterviewPage u) as H.
  rewrite app_nil_r in H. now destruct row.
Qed.

Lemma handle_interviews_letters (name : string)
      (links : list (string * string * string)) :
  forall st,
    letters_asked (requests (handle_interviews query_ids net name st links))
    = letters_asked (requests st).
Proof.
  unfold handle_interviews.
  induction links as [|l links IH]; intros st; simpl; [reflexivity|].
  now rewrite IH, handle_interview_letters.
Qed.

Lemma handle_player_letters (st : crawl) (p : string * string) :
  letters_asked (requests (handle_player urljoin query_ids net st p))
  = letters_asked (requests st).
Proof.
  destruct p as [u n]. unfold handle_player.
  pose proof (get_soup_letters st PlayerPage u) as H.
  destruct (get_soup net st PlayerPage u) as [psoup st1]. simpl in H.
  rewrite handle_interviews_letters, H. apply app_nil_r.
Qed.

Lemma players_letters (ps : list (string * string)) :
  forall st,
    letters_asked
      (requests (fold_left (handle_player urljoin query_ids net) ps st))
    = letters_asked (requests st).
Proof.
  induction ps as [|p ps IH]; intros st; simpl; [reflexivity|].
  now rewrite IH, handle_player_letters.
Qed.

Lemma handle_letter_letters (st : crawl) (u : string) :
  letters_asked (requests (handle_letter urljoin query_ids net st u))
  = (letters_asked (requests st) ++ [u])%list.
Proof.
  unfold handle_letter.
  pose proof (get_soup_letters st LetterPage u) as H.
  destruct (get_soup net st LetterPage u) as [lsoup st1]. simpl in H.
  now rewrite players_letters.
Qed.

Lemma letters_letters (urls : list string) :
  forall st,
    letters_asked
      (requests (fold_left (handle_letter urljoin query_ids net) urls st))
    = (letters_asked (requests st) ++ urls)%list.
Proof.
  induction urls as [|u urls IH]; intros st; simpl.
  - now rewrite app_nil_r.
  - rewrite IH, handle_letter_letters. now rewrite <- app_assoc.
Qed.

Lemma slice_to_length {A : Type} (l : list A) (n : option Z) :
  length (slice_to l n) <= length l.
Proof.
  unfold slice_to. destruct n as [k|]; [|lia].
  destruct (k <? 0)%Z; rewrite length_take; lia.
Qed.

(** A run asks for the letter pages of its slice of the alphabet, each
    once and in order, whatever the network answers: at most 26
    requests, exactly 26 when there is no cap, [k] for a cap [k] from 0
    to 26. *)
Theorem run_asks_each_letter_once (f : file) (resume : bool)
        (max_letters : option Z) (st : crawl) :
  run urljoin query_ids net f resume max_letters = inr st ->
  letters_asked (requests st) = slice_to get_letter_urls max_letters
  /\ length (letters_asked (requests st)) <= 26
  /\ (max_letters = None -> length (letters_asked (requests st)) = 26)
  /\ (forall k, max_letters = Some k -> (0 <= k <= 26)%Z ->
                length (letters_asked (requests st)) = Z.to_nat k).
Proof.
  unfold run. intros Hrun.
  destruct (if resume then load_scraped_ids f else inr ∅) as [e|ids];
    [discriminate|].
  injection Hrun as <-. rewrite letters_letters. cbn [requests].
  change (letters_asked []) with (@nil string). cbn [app].
  split; [reflexivity|]. split; [|split].
  - apply (slice_to_length get_letter_urls max_letters).
  - intros ->. reflexivity.
  - intros k -> Hk. unfold slice_to.
    destruct (k <? 0)%Z eqn:E; [apply Z.ltb_lt in E; lia|].
    rewrite length_take.
    change (length get_letter_urls) with 26. lia.
Qed.

(** A letter page or a player page that cannot be fetched is passed
    over: the request is logged and the store, the known set and the
    count stay as they are. *)
Theorem failed_index_fetch_is_skipped (st : crawl) (u n : string) :
  net (length (requests st)) u = None ->
  handle_letter urljoin query_ids net st u
  = mk_crawl (csv_file st) (scraped_ids st) (total_new st)
             (requests st ++ [mk_request LetterPage u false])%list
  /\ handle_player urljoin query_ids net st (u, n)
     = mk_crawl (csv_file st) (scraped_ids st) (total_new st)
                (requests st ++ [mk_request PlayerPage u false])%list.
Proof.
  intros H. unfold handle_letter, handle_player, get_soup.
  rewrite H. split; reflexivity.
Qed.

End LetterFacts.

Lemma run_asks_each_letter_once_fixture :
  letters_asked
    (requests (state_of (run Fixture.urljoin Fixture.query_ids Fixture.site
                             Missing true (Some 1%Z))))
  = ["https://www.asapsports.com/show_player.php?category=2&letter=a"].
Proof.
  refine (proj1 (run_asks_each_letter_once
                   Fixture.urljoin Fixture.query_ids Fixture.site
                   Missing true (Some 1%Z) _ _)).
  vm_compute. reflexivity.
Defined.

Lemma failed_index_fetch_is_skipped_fixture :
  handle_letter Fixture.urljoin Fixture.query_ids (fun _ _ => None)
    (mk_crawl Fixture.store_with_7 {["7"]} 0 [])
    "https://www.asapsports.com/show_player.php?category=2&letter=a"
  = mk_crawl Fixture.store_with_7 {["7"]} 0
      [mk_request LetterPage
         "https://www.asapsports.com/show_player.php?category=2&letter=a"
         false].
Proof.
  refine (proj1 (failed_index_fetch_is_skipped
                   Fixture.urljoin Fixture.query_ids (fun _ _ => None)
                   (mk_crawl Fixture.store_with_7 {["7"]} 0 []) _ "" _)).
  reflexivity.
Defined.

(** ** A second run on a site that has not changed *)

Section SecondRun.

Variable urljoin : string -> string -> string.
Variable query_ids : string -> list string.
Variable site : string -> option soup.

Lemma settled_mono (ids ids' : gset string)
      (link : string * string * string) :
  ids ⊆ ids' -> settled query_ids site ids link ->
  settled query_ids site ids' link.
Proof.
  intros Hsub H iid Hp Ht. destruct (H iid Hp Ht) as [Hi|Hn]; [left | now right].
  now apply Hsub.
Qed.

Lemma handle_interview_grows (name : string) (st : crawl)
      (link : string * string * string) :
  scraped_ids st
  ⊆ scraped_ids (handle_interview query_ids (static site) name st link).
Proof.
  destruct link as [[u title] date_]. unfold handle_interview.
  destruct (parse_interview_id query_ids u) as [iid|]; [|reflexivity].
  destruct (negb (truthy iid)); [reflexivity|].
  destruct (bool_decide (iid ∈ scraped_ids st)); [reflexivity|].
  destruct (scrape_cases (static site) st u iid name title date_)
    as [[_ E]|[d E]]; rewrite E; simpl; [reflexivity|].
  apply union_subseteq_r.
Qed.

Lemma handle_interview_settles (name : string) (st : crawl)
      (link : string * string * string) :
  settled query_ids site
          (scraped_ids (handle_interview query_ids (static site) name st link))
          link.
Proof.
  destruct link as [[u title] date_]. intros iid Hp Ht. simpl in Hp.
  unfold handle_interview. rewrite Hp, Ht. simpl.
  destruct (bool_decide (iid ∈ scraped_ids st)) eqn:Hin.
  - left. now apply bool_decide_eq_true in Hin.
  - destruct (scrape_cases (static site) st u iid name title date_)
      as [[Hn E]|[d E]]; rewrite E; simpl.
    + right. exact Hn.
    + left. apply elem_of_union. left. now apply elem_of_singleton.
Qed.

Lemma handle_interviews_settle (name : string)
      (links : list (string * string * string)) :
  forall st,
    scraped_ids st
    ⊆ scraped_ids (handle_interviews query_ids (static site) name st links)
    /\ Forall (settled query_ids site
                 (scraped_ids
                    (handle_interviews query_ids (static site) name st links)))
              links.
Proof.
  unfold handle_interviews.
  induction links as [|l links IH]; intros st; simpl.
  - split; [reflexivity | constructor].
  - destruct (IH (handle_interview query_ids (static site) name st l))
      as [Hsub Hall].
    split.
    + etrans; [apply handle_interview_grows | exact Hsub].
    + constructor; [|exact Hall].
      eapply settled_mono; [exact Hsub | apply handle_interview_settles].
Qed.

Lemma handle_player_settles (st : crawl) (p : string * string) :
  scraped_ids st
  ⊆ scraped_ids (handle_player urljoin query_ids (static site) st p)
  /\ Forall (settled query_ids site
               (scraped_ids
                  (handle_player urljoin query_ids (static site) st p)))
            (get_interview_links urljoin (site (fst p))).
Proof.
  destruct p as [u n]. unfold handle_player, get_soup, static.
  cbn [fst].
  match goal with
  | |- context [handle_interviews _ _ ?nm ?s ?l] =>
      exact (handle_interviews_settle nm l s)
  end.
Qed.

Lemma players_settle (ps : list (string * string)) :
  forall st,
    scraped_ids st
    ⊆ scraped_ids
        (fold_left (handle_player urljoin query_ids (static site)) ps st)
    /\ Forall (fun p =>
                 Forall (settled query_ids site
                           (scraped_ids
                              (fold_left
                                 (handle_player urljoin query_ids
                                                (static site)) ps st)))
                        (get_interview_links urljoin (site (fst p))))
              ps.
Proof.
  induction ps as [|p ps IH]; intros st; simpl.
  - split; [reflexivity | constructor].
  - destruct (IH (handle_player urljoin query_ids (static site) st p))
      as [Hsub Hall].
    destruct (handle_player_settles st p) as [Hsub' Hp].
    split; [etrans; eassumption|].
    constructor; [|exact Hall].
    eapply List.Forall_impl; [|exact Hp].
    intros l. now apply settled_mono.
Qed.

Lemma handle_letter_settles (st : crawl) (u : string) :
  scraped_ids st
  ⊆ scraped_ids (handle_letter urljoin query_ids (static site) st u)
  /\ letter_settled urljoin query_ids site
       (scraped_ids (handle_letter urljoin query_ids (static site) st u)) u.
Proof.
  unfold handle_letter, letter_settled, get_soup, static.
  match goal with
  | |- context [fold_left _ ?l ?s] => exact (players_settle l s)
  end.
Qed.

Lemma letter_settled_mono (ids ids' : gset string) (u : string) :
  ids ⊆ ids' ->
  letter_settled urljoin query_ids site ids u ->
  letter_settled urljoin query_ids site ids' u.
Proof.
  intros Hsub. unfold letter_settled. intros H.
  eapply List.Forall_impl; [|exact H]. intros p Hp.
  eapply List.Forall_impl; [|exact Hp]. intros l. now apply settled_mono.
Qed.

Lemma letters_settle (urls : list string) :
  forall st,
    scraped_ids st
    ⊆ scraped_ids
        (fold_left (handle_letter urljoin query_ids (static site)) urls st)
    /\ Forall (letter_settled urljoin query_ids site
                 (scraped_ids
                    (fold_left
                       (handle_letter urljoin query_ids (static site))
                       urls st)))
              urls.
Proof.
  induction urls as [|u urls IH]; intros st; simpl.
  - split; [reflexivity | constructor].
  - destruct (IH (handle_letter urljoin query_ids (static site) st u))
      as [Hsub Hall].
    destruct (handle_letter_settles st u) as [Hsub' Hu].
    split; [etrans; eassumption|].
    constructor; [|exact Hall].
    now apply (letter_settled_mono _ _ u Hsub).
Qed.

(** A settled link changes the log at most. *)
Lemma handle_interview_quiet (ids : gset string) (name : string)
      (st : crawl) (link : string * string * string) :
  settled query_ids site ids link -> ids ⊆ scraped_ids st ->
  same_but_log st (handle_interview query_ids (static site) name st link).
Proof.
  intros Hs Hsub. destruct link as [[u title] date_].
  unfold handle_interview, same_but_log.
  destruct (parse_interview_id query_ids u) as [iid|] eqn:Hp; [|auto].
  destruct (negb (truthy iid)) eqn:Ht; [auto|].
  destruct (bool_decide (iid ∈ scraped_ids st)) eqn:Hin; [auto|].
  apply negb_false_iff in Ht. apply bool_decide_eq_false in Hin.
  destruct (Hs iid Hp Ht) as [Hi|Hn].
  - exfalso. apply Hin. now apply Hsub.
  - simpl in Hn.
    rewrite (scrape_failed (static site) st u iid name title date_ Hn).
    auto.
Qed.

Lemma same_but_log_trans (a b c : crawl) :
  same_but_log a b -> same_but_log b c -> same_but_log a c.
Proof.
  intros (H1 & H2 & H3) (H4 & H5 & H6). unfold same_but_log.
  repeat split; congruence.
Qed.

Lemma handle_interviews_quiet (ids : gset string) (name : string)
      (links : list (string * string * string)) :
  Forall (settled query_ids site ids) links ->
  forall st, ids ⊆ scraped_ids st ->
    same_but_log st
      (handle_interviews query_ids (static site) name st links).
Proof.
  unfold handle_interviews.
  intros H. induction H as [|l links Hl Hlinks IH]; intros st Hsub; simpl.
  - now unfold same_but_log.
  - pose proof (handle_interview_quiet ids name st l Hl Hsub) as Hq.
    eapply same_but_log_trans; [exact Hq|].
    apply IH. destruct Hq as (_ & _ & ->). exact Hsub.
Qed.

Lemma get_soup_quiet (st : crawl) (r : role) (u : string) :
  same_but_log st (snd (get_soup (static site) st r u)).
Proof. now unfold same_but_log. Qed.

Lemma players_quiet (ids : gset string) (ps : list (string * string)) :
  Forall (fun p => Forall (settled query_ids site ids)
                          (get_interview_links urljoin (site (fst p)))) ps ->
  forall st, ids ⊆ scraped_ids st ->
    same_but_log st
      (fold_left (handle_player urljoin query_ids (static site)) ps st).
Proof.
  intros H. induction H as [|p ps Hp Hps IH]; intros st Hsub; simpl.
  - now unfold same_but_log.
  - assert (Hq : same_but_log st
                   (handle_player urljoin query_ids (static site) st p)).
    { destruct p as [u n]. unfold handle_player, get_soup, static.
      cbn [fst] in Hp.
      match goal with
      | |- context [handle_interviews _ _ ?nm ?s ?l] =>
          exact (handle_interviews_quiet ids nm l Hp s Hsub)
      end. }
    eapply same_but_log_trans; [exact Hq|].
    apply IH. destruct Hq as (_ & _ & ->). exact Hsub.
Qed.

Lemma letters_quiet (ids : gset string) (urls : list string) :
  Forall (letter_settled urljoin query_ids site ids) urls ->
  forall st, ids ⊆ scraped_ids st ->
    same_but_log st
      (fold_left (handle_letter urljoin query_ids (static site)) urls st).
Proof.
  intros H. induction H as [|u urls Hu Hurls IH]; intros st Hsub; simpl.
  - now unfold same_but_log.
  - assert (Hq : same_but_log st
                   (handle_letter urljoin query_ids (static site) st u)).
    { unfold handle_letter, get_soup, static.
      match goal with
      | |- context [fold_left _ ?l ?s] =>
          exact (players_quiet ids l Hu s Hsub)
      end. }
    eapply same_but_log_trans; [exact Hq|].
    apply IH. destruct Hq as (_ & _ & ->). exact Hsub.
Qed.

End SecondRun.

Section SecondRunTheorem.

Variable urljoin : string -> string -> string.
Variable query_ids : string -> list string.
Variable site : string -> option soup.

(** On a site that answers every URL the same way at every request:
    after a run, a run with resume over the same letters, on a store
    from which every identifier the first run knew at its end is loaded,
    writes nothing.  The store is as the header call leaves it, the count
    is 0, the known set is the set loaded, and no request for an
    interview page gets a page.  (Whether the store the first run left
    loads that way is a matter of the reader: it does when the rows
    written read back as they were written and the identifiers have no
    blank at either end.) *)
Theorem rerun_writes_nothing (f f2 : file) (resume : bool)
        (max_letters : option Z) (st1 : crawl) (ids2 : gset string) :
  run urljoin query_ids (static site) f resume max_letters = inr st1 ->
  load_scraped_ids f2 = inr ids2 ->
  scraped_ids st1 ⊆ ids2 ->
  exists st2,
    run urljoin query_ids (static site) f2 true max_letters = inr st2
    /\ csv_file st2 = ensure_csv_header f2
    /\ total_new st2 = 0
    /\ scraped_ids st2 = ids2
    /\ fetched (requests st2) = [].
Proof.
  intros Hrun Hload Hsub.
  assert (Hsettled :
            Forall (letter_settled urljoin query_ids site ids2)
                   (slice_to get_letter_urls max_letters)).
  { unfold run in Hrun.
    destruct (if resume then load_scraped_ids f else inr ∅) as [e|ids0];
      [discriminate|].
    injection Hrun as <-.
    eapply List.Forall_impl; [|apply letters_settle].
    intros u Hu. eapply letter_settled_mono; [exact Hsub | exact Hu]. }
  destruct (run urljoin query_ids (static site) f2 true max_letters)
    as [e|st2] eqn:Hrun2.
  { unfold run in Hrun2. rewrite Hload in Hrun2. discriminate. }
  exists st2. split; [reflexivity|].
  destruct (run_written urljoin query_ids (static site) f2 true
              max_letters st2 ids2 Hrun2 Hload)
    as (new & _ & H2 & _ & _ & _ & H6).
  unfold run in Hrun2. rewrite Hload in Hrun2. injection Hrun2 as <-.
  match goal with
  | |- context [fold_left _ ?l ?s] =>
      pose proof (letters_quiet urljoin query_ids site ids2
                    l Hsettled s) as Hquiet
  end.
  destruct Hquiet as (Hc & Ht & Hi); [reflexivity|].
  split; [exact Hc|]. split; [exact Ht|]. split; [exact Hi|].
  rewrite <- H6. rewrite Ht in H2. cbn [total_new] in H2.
  destruct new; [reflexivity | discriminate].
Qed.

End SecondRunTheorem.

(** The site of the examples, asked twice over its first letter: the
    second run opens the store the first run left. *)
Lemma rerun_writes_nothing_fixture :
  exists st2,
    run Fixture.urljoin Fixture.query_ids (static (Fixture.site 0))
        Fixture.store_after_first_run true (Some 1%Z)
    = inr st2
    /\ csv_file st2 = ensure_csv_header Fixture.store_after_first_run
    /\ total_new st2 = 0
    /\ scraped_ids st2 = {["7"]}
    /\ fetched (requests st2) = [].
Proof.
  refine (rerun_writes_nothing
            Fixture.urljoin Fixture.query_ids (Fixture.site 0)
            Missing Fixture.store_after_first_run true (Some 1%Z)
            (state_of (run Fixture.urljoin Fixture.query_ids
                           (static (Fixture.site 0)) Missing true
                           (Some 1%Z)))
            {["7"]} _ _ _).
  - vm_compute. reflexivity.
  - vm_compute. reflexivity.
  - assert (E : scraped_ids
                  (state_of (run Fixture.urljoin Fixture.query_ids
                                 (static (Fixture.site 0)) Missing true
                                 (Some 1%Z)))
                = {["7"]}) by (vm_compute; reflexivity).
    rewrite E. reflexivity.
Defined.

(** ** The row made from a fetched page *)

(** When the page is fetched, the row has the identifier, the URL and
    the player name it was called with; its title is the h1 of the page
    and the title of the link only when the page has no h1 text; its
    date is the date beside the link and the date of the page only when
    there is none beside the link; the other fields are those
    extracted.  When the page is not fetched there is no row. *)
Theorem scraped_row_fields (net : nat -> string -> option soup)
        (st : crawl) (u iid name title date_ : string) :
  (forall page,
      net (length (requests st)) u = Some page ->
      exists r,
        fst (scrape_interview net st u iid name title date_) = Some r
        /\ interview_id r = iid /\ url r = u
        /\ player_name (row_data r) = name
        /\ interview_title (row_data r)
           = (if truthy (default "" (text_of <$> soup_find "h1" page))
              then default "" (text_of <$> soup_find "h1" page)
              else title)
        /\ event (row_data r) = default "" (text_of <$> soup_find "h1" page)
        /\ date (row_data r)
           = (if truthy date_ then date_
              else date (fst (extract_transcript_metadata_and_text
                                (Some page))))
        /\ venue (row_data r)
           = venue (fst (extract_transcript_metadata_and_text (Some page)))
        /\ team (row_data r)
           = team (fst (extract_transcript_metadata_and_text (Some page)))
        /\ session_type (row_data r)
           = session_type
               (fst (extract_transcript_metadata_and_text (Some page)))
        /\ transcript (row_data r)
           = transcript
               (fst (extract_transcript_metadata_and_text (Some page))))
  /\ (net (length (requests st)) u = None ->
      fst (scrape_interview net st u iid name title date_) = None).
Proof.
  split.
  - intros page Hn. unfold scrape_interview, get_soup. rewrite Hn.
    destruct (h1_fields page) as [Ht He].
    eexists. split; [reflexivity|]. cbn [interview_id url row_data].
    unfold set_date, set_interview_title, set_player_name.
    cbn [player_name interview_title date event venue team session_type
         transcript].
    rewrite Ht, He. repeat split; reflexivity.
  - intros Hn. unfold scrape_interview, get_soup. now rewrite Hn.
Qed.

Lemma scraped_row_fields_fixture :
  exists r,
    fst (scrape_interview Fixture.site
           (mk_crawl Fixture.store_with_7 ∅ 0 [])
           "https://www.asapsports.com/show_interview.php?id=7" "7"
           "Jane Doe" "Game 1" "October 4, 2023") = Some r
    /\ interview_id r = "7"
    /\ url r = "https://www.asapsports.com/show_interview.php?id=7"
    /\ player_name (row_data r) = "Jane Doe"
    /\ interview_title (row_data r) = "World Series"
    /\ date (row_data r) = "October 4, 2023".
Proof.
  destruct (proj1 (scraped_row_fields Fixture.site
                     (mk_crawl Fixture.store_with_7 ∅ 0 [])
                     "https://www.asapsports.com/show_interview.php?id=7"
                     "7" "Jane Doe" "Game 1" "October 4, 2023")
              Fixture.page_four_paragraphs eq_refl)
    as (r & H1 & H2 & H3 & H4 & H5 & _ & H7 & _).
  exists r. repeat (split; [assumption|]). exact H7.
Defined.
